(** * toughio: fixed-width record codec, parameter validator and MESH writer

    A shallow embedding of
    - [toughio/_io/input/tough/_helpers.py] (record codec, parameter
      validator), module [Helpers];
    - [toughio/mesh/tough/_tough.py] (ELEME / CONNE block writer and the
      geometry behind it), module [Tough];
    on top of a model of the Python and numpy built-ins the two files call,
    module [Py].

    Python [float] and numpy [float64] are IEEE binary64 numbers: they are
    the primitive floats of Rocq.  Their decimal renderings ([format] with
    the [e] and [f] presentation types) are computed from the exact rational
    value of the number, rounded half-to-even, the way CPython does. *)

From Stdlib Require Import ZArith QArith Qround List String Ascii Bool Lia.
From Stdlib Require Import Floats.
From stdpp Require Import base decidable countable strings gmap.
Import ListNotations.

#[local] Open Scope string_scope.
#[local] Open Scope Z_scope.
#[local] Open Scope list_scope.

(* ===================================================================== *)
(** * Python built-ins                                                     *)
(* ===================================================================== *)

Module Py.

(** ** Exceptions and results *)

Inductive exn : Type :=
| ValueError
| KeyError
| IndexError
| ZeroDivisionError
| OverflowError
| AssertionError
| NotImplementedError
| UnboundLocalError
| AxisError
| TypeError (msg : string)
| Unmodelled (what : string).

Inductive result (A : Type) : Type :=
| Ok (a : A)
| Raise (e : exn).
Arguments Ok {A} a.
Arguments Raise {A} e.

#[export] Instance result_ret : MRet result := fun A a => Ok a.
#[export] Instance result_bind : MBind result := fun A B k m =>
  match m with
  | Ok a => k a
  | Raise e => Raise e
  end.

Definition of_option {A} (e : exn) (o : option A) : result A :=
  match o with
  | Some a => Ok a
  | None => Raise e
  end.

Fixpoint mapM {A B} (f : A -> result B) (l : list A) : result (list B) :=
  match l with
  | [] => Ok []
  | a :: l' => b ← f a; bs ← mapM f l'; Ok (b :: bs)
  end.

(** ** Strings *)

Definition is_space (c : ascii) : bool :=
  let n := nat_of_ascii c in
  (Nat.eqb n 32 || (Nat.leb 9 n && Nat.leb n 13))%bool.

Definition is_digit (c : ascii) : bool :=
  let n := nat_of_ascii c in (Nat.leb 48 n && Nat.leb n 57)%bool.

Fixpoint lstrip (s : string) : string :=
  match s with
  | String c s' => if is_space c then lstrip s' else s
  | EmptyString => EmptyString
  end.

Fixpoint rstrip (s : string) : string :=
  match s with
  | String c s' =>
      match rstrip s' with
      | EmptyString => if is_space c then EmptyString else String c EmptyString
      | r => String c r
      end
  | EmptyString => EmptyString
  end.

(** [s.strip()] *)
Definition strip (s : string) : string := rstrip (lstrip s).


(** [s[:-k]] and [s[-k:]] *)
Definition drop_last (k : nat) (s : string) : string :=
  substring 0 (String.length s - k) s.
Definition take_last (k : nat) (s : string) : string :=
  substring (String.length s - k) k s.

(** [s[-1]] *)
Fixpoint last_char (s : string) : option ascii :=
  match s with
  | EmptyString => None
  | String c EmptyString => Some c
  | String _ s' => last_char s'
  end.

(** [c in s] for a one-character [c] *)
Fixpoint contains (c : ascii) (s : string) : bool :=
  match s with
  | EmptyString => false
  | String d s' => (Ascii.eqb c d || contains c s')%bool
  end.

(** [s.split(c)] for a one-character separator *)
Fixpoint split (c : ascii) (s : string) : list string :=
  match s with
  | EmptyString => [EmptyString]
  | String d s' =>
      match split c s' with
      | w :: ws => if Ascii.eqb c d then EmptyString :: w :: ws
                   else String d w :: ws
      | [] => [EmptyString]
      end
  end.

(** [s.replace(old, new)] for a one-character [old] *)
Fixpoint replace (old : ascii) (new : string) (s : string) : string :=
  match s with
  | EmptyString => EmptyString
  | String d s' =>
      if Ascii.eqb old d then new +:+ replace old new s'
      else String d (replace old new s')
  end.

Fixpoint spaces (n : nat) : string :=
  match n with
  | O => EmptyString
  | S n' => String " " (spaces n')
  end.

(** [s.ljust(n)] and [s.rjust(n)]: never truncate *)
Definition ljust (n : nat) (s : string) : string :=
  s +:+ spaces (n - String.length s).
Definition rjust (n : nat) (s : string) : string :=
  spaces (n - String.length s) +:+ s.

Definition lower (c : ascii) : ascii :=
  let n := nat_of_ascii c in
  if (Nat.leb 65 n && Nat.leb n 90)%bool then ascii_of_nat (n + 32) else c.

Fixpoint lower_str (s : string) : string :=
  match s with
  | EmptyString => EmptyString
  | String c s' => String (lower c) (lower_str s')
  end.

(** [''.join(l)] *)
Definition join (l : list string) : string := String.concat "" l.

(** ** Decimal numerals *)

Definition digit_char (d : Z) : ascii := ascii_of_nat (48 + Z.to_nat d).

Fixpoint digits_aux (fuel : nat) (n : Z) (acc : string) : string :=
  match fuel with
  | O => acc
  | S fuel' =>
      let acc' := String (digit_char (n mod 10)) acc in
      if n <? 10 then acc' else digits_aux fuel' (n / 10) acc'
  end.

(** decimal digits of a non-negative integer, no leading zero *)
Definition digits (n : Z) : string :=
  digits_aux (S (Z.to_nat (Z.log2 n))) n "".

(** [str(n)] for an [int] *)
Definition str_of_int (n : Z) : string :=
  if n <? 0 then "-" +:+ digits (- n) else digits n.

Definition digit_value (c : ascii) : Z := Z.of_nat (nat_of_ascii c) - 48.

Fixpoint digits_value_aux (s : string) (acc : Z) : option Z :=
  match s with
  | EmptyString => Some acc
  | String c s' =>
      if is_digit c then digits_value_aux s' (10 * acc + digit_value c)
      else None
  end.

(** value of a non-empty string of decimal digits *)
Definition digits_value (s : string) : option Z :=
  match s with
  | EmptyString => None
  | _ => digits_value_aux s 0
  end.

Definition split_sign (s : string) : bool * string :=
  match s with
  | String "-" s' => (true, s')
  | String "+" s' => (false, s')
  | _ => (false, s)
  end.

(** Python reads numerals with digit-group underscores, as in ["1_000"],
    and with digits and blanks outside ASCII.  These are not modelled: a
    text with such a character is answered by [Unmodelled]. *)
Definition unmodelled_char (c : ascii) : bool :=
  (Ascii.eqb c "_" || Nat.leb 128 (nat_of_ascii c))%bool.

Fixpoint has_unmodelled (s : string) : bool :=
  match s with
  | EmptyString => false
  | String c s' => (unmodelled_char c || has_unmodelled s')%bool
  end.

(** [int(s)] for a string: surrounding blanks, a sign, decimal digits *)
Definition int_of_str (s : string) : result Z :=
  if has_unmodelled s then Raise (Unmodelled "numeral")
  else
    let '(neg, body) := split_sign (strip s) in
    match digits_value body with
    | Some n => Ok (if neg then - n else n)
    | None => Raise ValueError
    end.

(** ** Binary64 numbers and their exact decimal renderings *)

(** A non-negative rational is a pair [(n, d)] of integers, [0 <= n] and
    [0 < d]; the functions below never reduce it. *)

Definition cond_neg (neg : bool) (n : Z) : Z := if neg then - n else n.

(** sign bit, numerator and denominator of a finite float *)
Definition float_frac (f : float) : option (bool * Z * Z) :=
  match Prim2SF f with
  | S754_zero s => Some (s, 0, 1)
  | S754_finite s m e =>
      Some (if 0 <=? e then (s, Z.pos m * 2 ^ e, 1) else (s, Z.pos m, 2 ^ (- e)))
  | _ => None
  end.

(** exact value of a finite float *)
Definition float_value (f : float) : option Q :=
  match float_frac f with
  | Some (s, n, d) => Some (Qmake (cond_neg s n) (Z.to_pos d))
  | None => None
  end.

(** the binary64 number nearest to [(-1)^neg * n / d], ties to even: the
    quotient is computed to more than 64 bits with a sticky last bit and
    rounded once *)
Definition SF_of_frac (neg : bool) (n d : Z) : spec_float :=
  if n =? 0 then S754_zero neg
  else
    let s := Z.max 0 (66 + Z.log2 d - Z.log2 n) in
    let q := (n * 2 ^ s) / d in
    let r := (n * 2 ^ s) mod d in
    let m := 2 * q + (if r =? 0 then 0 else 1) in
    binary_normalize prec emax (cond_neg neg m) (- s - 1) neg.

Definition float_of_frac (neg : bool) (n d : Z) : float :=
  SF2Prim (SF_of_frac neg n d).

(** [n / d] rounded to the nearest integer, ties to even *)
Definition round_half_even (n d : Z) : Z :=
  let q := n / d in
  match (2 * (n mod d)) ?= d with
  | Lt => q
  | Gt => q + 1
  | Eq => if Z.even q then q else q + 1
  end.

(** [n / d * 10^k] rounded to the nearest integer, ties to even *)
Definition round_scaled (n d k : Z) : Z :=
  if 0 <=? k then round_half_even (n * 10 ^ k) d
  else round_half_even n (d * 10 ^ (- k)).

Fixpoint log10_aux (fuel : nat) (n : Z) : Z :=
  match fuel with
  | O => 0
  | S fuel' => if n <? 10 then 0 else 1 + log10_aux fuel' (n / 10)
  end.

(** number of decimal digits of [n], [1] for [n <= 0] *)
Definition ndigits (n : Z) : Z := 1 + log10_aux (Z.to_nat (Z.log2 n)) n.

(** [10^k <= n / d] *)
Definition pow10_le (k n d : Z) : bool :=
  if 0 <=? k then d * 10 ^ k <=? n else d <=? n * 10 ^ (- k).

(** the decimal exponent [e] of [n / d > 0]: [10^e <= n/d < 10^(e+1)] *)
Definition dec_exponent (n d : Z) : Z :=
  let e0 := ndigits n - ndigits d in
  if pow10_le e0 n d then e0 else e0 - 1.

(** [n / d] rounded to [p] significant digits ([1 <= p]): the [p]-digit
    integer [m] and the exponent [e] with [n/d ~ m * 10^(e - p + 1)];
    zero is [(0, 0)] *)
Definition sig_digits (p : Z) (n d : Z) : Z * Z :=
  if n =? 0 then (0, 0)
  else
    let e := dec_exponent n d in
    let m := round_scaled n d (p - 1 - e) in
    if m =? 10 ^ p then (10 ^ (p - 1), e + 1) else (m, e).

Fixpoint zeros (n : nat) : string :=
  match n with
  | O => ""
  | S n' => String "0" (zeros n')
  end.

(** [s.zfill(n)] for a string of digits *)
Definition zfill (n : nat) (s : string) : string :=
  zeros (n - String.length s) +:+ s.

(** [m * 10^(-scale)] in positional notation with [scale] decimals; no
    point when [scale = 0] *)
Definition fixed_str (m : Z) (scale : nat) : string :=
  let ds := zfill (S scale) (digits m) in
  let k := (String.length ds - scale)%nat in
  match scale with
  | O => ds
  | _ => substring 0 k ds +:+ "." +:+ substring k scale ds
  end.

(** the exponent part, as C's ["e%+.02d"] *)
Definition exp_str (e : Z) : string :=
  "e" +:+ (if e <? 0 then "-" else "+") +:+ zfill 2 (digits (Z.abs e)).

Fixpoint strip_zeros_aux (fuel : nat) (m : Z) (k : Z) : Z * Z :=
  match fuel with
  | O => (m, k)
  | S fuel' =>
      if (negb (m =? 0) && (m mod 10 =? 0))%bool
      then strip_zeros_aux fuel' (m / 10) (k + 1)
      else (m, k)
  end.

(** [m = m' * 10^k] with [m'] not a multiple of ten (or zero) *)
Definition strip_zeros (m : Z) : Z * Z :=
  strip_zeros_aux (Z.to_nat (Z.log2 m)) m 0.

(** digits after rounding to [p] decimals: presentation type [f] *)
Definition fmt_f (p : nat) (n d : Z) : string :=
  fixed_str (round_scaled n d (Z.of_nat p)) p.

(** presentation type [e] with [p] decimals *)
Definition fmt_e (p : nat) (n d : Z) : string :=
  let '(m, e) := sig_digits (Z.of_nat p + 1) n d in
  fixed_str m p +:+ exp_str e.

(** layout shared by [g] and [repr]: [m] has [nd] digits, none of them a
    trailing zero, and the value is [m * 10^(e - nd + 1)] *)
Definition short_str (use_exp add_dot_0 : bool) (m nd e : Z) : string :=
  if use_exp then fixed_str m (Z.to_nat (nd - 1)) +:+ exp_str e
  else if nd - 1 <=? e
       then digits (m * 10 ^ (e - (nd - 1))) +:+ (if add_dot_0 then ".0" else "")
       else fixed_str m (Z.to_nat (nd - 1 - e)).

(** presentation type [g] with precision [p]; [add_dot_0] is set when the
    type is left out of the format specification *)
Definition fmt_g (add_dot_0 : bool) (p : nat) (n d : Z) : string :=
  let P := Z.max 1 (Z.of_nat p) in
  let '(m, e) := sig_digits P n d in
  let '(m', k) := strip_zeros m in
  let nd := if m =? 0 then 1 else P - k in
  let use_exp := ((e <? -4) || ((if add_dot_0 then P - 1 else P) <=? e))%bool in
  short_str use_exp add_dot_0 m' nd e.

(** candidates with [p] digits for the shortest numeral that reads back as
    [n / d]: the nearest first *)
Definition repr_try (p : Z) (n d : Z) : option (Z * Z) :=
  let e := dec_exponent n d in
  let k := p - 1 - e in
  let lo := if 0 <=? k then (n * 10 ^ k) / d else n / (d * 10 ^ (- k)) in
  let near := round_scaled n d k in
  let far := if near =? lo then lo + 1 else lo in
  let back (m : Z) : bool :=
    let f := if 0 <=? k then float_of_frac false m (10 ^ k)
             else float_of_frac false (m * 10 ^ (- k)) 1 in
    PrimFloat.eqb f (float_of_frac false n d) in
  if back near then Some (near, e)
  else if back far then Some (far, e)
  else None.

Fixpoint repr_search (fuel : nat) (p : Z) (n d : Z) : Z * Z * Z :=
  match fuel with
  | O => let '(m, e) := sig_digits 17 n d in (m, 17, e)
  | S fuel' =>
      match repr_try p n d with
      | Some (m, e) => (m, p, e)
      | None => repr_search fuel' (p + 1) n d
      end
  end.

(** [repr(x)] of a finite non-negative float: the shortest numeral that
    reads back as [x], positional for [1e-4 <= x < 1e16] *)
Definition fmt_repr (n d : Z) : string :=
  if n =? 0 then "0.0"
  else
    let '(m, p, e) := repr_search 16 1 n d in
    let e := if m =? 10 ^ p then e + 1 else e in
    let '(m', k) := strip_zeros m in
    short_str ((e <? -4) || (16 <=? e))%bool true m' (p - k) e.

Inductive float_type := FtE | FtF | FtG | FtNone.

(** [format(x, spec)] of a float, before padding: [prec] is the precision
    of the specification, if any *)
Definition float_str (ty : float_type) (prec : option nat) (f : float) : string :=
  match float_frac f with
  | Some (s, n, d) =>
      (if s then "-" else "") +:+
      match ty, prec with
      | FtE, _ => fmt_e (default 6%nat prec) n d
      | FtF, _ => fmt_f (default 6%nat prec) n d
      | FtG, _ => fmt_g false (default 6%nat prec) n d
      | FtNone, Some p => fmt_g true p n d
      | FtNone, None => fmt_repr n d
      end
  | None =>
      match Prim2SF f with
      | S754_infinity true => "-inf"
      | S754_infinity false => "inf"
      | _ => "nan"
      end
  end.

(** [repr(x)], which is also [str(x)] *)
Definition repr_float (f : float) : string := float_str FtNone None f.

(** ** Reading a float: [float(s)] *)

Fixpoint split_exponent (s : string) : string * option string :=
  match s with
  | EmptyString => (EmptyString, None)
  | String c s' =>
      if (Ascii.eqb c "e" || Ascii.eqb c "E")%bool then (EmptyString, Some s')
      else let '(m, e) := split_exponent s' in (String c m, e)
  end.

(** a mantissa [ddd], [ddd.], [.ddd] or [ddd.ddd]: its digits read as one
    integer and the number of digits after the point *)
Definition mantissa_value (s : string) : option (Z * Z) :=
  match split "." s with
  | [i] => n ← digits_value i; Some (n, 0)
  | [i; f] =>
      if (String.eqb i "" && String.eqb f "")%bool then None
      else
        n ← digits_value_aux i 0;
        m ← digits_value_aux f 0;
        let k := Z.of_nat (String.length f) in
        Some (n * 10 ^ k + m, k)
  | _ => None
  end.

Definition exponent_value (e : option string) : option Z :=
  match e with
  | None => Some 0
  | Some t =>
      let '(neg, body) := split_sign t in
      n ← digits_value body; Some (cond_neg neg n)
  end.

(** the fraction [m * 10^e] *)
Definition frac_pow10 (m e : Z) : Z * Z :=
  if 0 <=? e then (m * 10 ^ e, 1) else (m, 10 ^ (- e)).

(** the rational a decimal numeral denotes, as a fraction *)
Definition decimal_frac (s : string) : option (Z * Z) :=
  let '(m, e) := split_exponent s in
  '(n, k) ← mantissa_value m;
  x ← exponent_value e;
  Some (frac_pow10 n (x - k)).

(** [float(s)]: blanks around, a sign, then [inf], [infinity], [nan] or a
    decimal numeral, read to the nearest binary64 number; a text with a
    character that is not modelled is answered by [Unmodelled] *)
Definition float_of_str (s : string) : result float :=
  if has_unmodelled s then Raise (Unmodelled "numeral")
  else
    let '(neg, body) := split_sign (strip s) in
    let w := lower_str body in
    if (String.eqb w "inf" || String.eqb w "infinity")%bool
    then Ok (if neg then neg_infinity else infinity)
    else if String.eqb w "nan" then Ok nan
    else match decimal_frac body with
         | Some (n, d) => Ok (float_of_frac neg n d)
         | None => Raise ValueError
         end.

(** [float(n)] for an [int] *)
Definition float_of_int (n : Z) : result float :=
  match SF_of_frac (n <? 0) (Z.abs n) 1 with
  | S754_infinity _ => Raise OverflowError
  | sf => Ok (SF2Prim sf)
  end.

(** ** Values *)

(** dictionary keys of the parameter containers: strings, and integers in
    the numbered option blocks *)
Inductive key : Type :=
| KStr (s : string)
| KInt (n : Z).

#[export] Instance key_eq_dec : EqDecision key.
Proof. solve_decision. Defined.

#[export] Instance key_countable : Countable key :=
  inj_countable'
    (fun k => match k with KStr s => inl s | KInt n => inr n end)
    (fun x => match x with inl s => KStr s | inr n => KInt n end)
    (fun k => match k with KStr _ | KInt _ => eq_refl end).

#[warnings="-register-all"]
Inductive pyval : Type :=
| PyNone
| PyBool (b : bool)
| PyInt (n : Z)
| PyFloat (x : float)
| PyStr (s : string)
| PyList (l : list pyval)
| PyTuple (l : list pyval)
| PyDict (items : list (key * pyval))
| NpInt32 (n : Z)
| NpInt64 (n : Z)
| NpFloat32 (x : float)
| NpFloat64 (x : float)
| NdArray (l : list pyval).

(** the classes a value can be tested against with [isinstance] *)
Inductive pyclass : Type :=
| c_NoneType | c_bool | c_int | c_float | c_str | c_list | c_tuple | c_dict
| c_np_int32 | c_np_int64 | c_np_float32 | c_np_float64 | c_np_ndarray.

#[export] Instance pyclass_eq_dec : EqDecision pyclass.
Proof. solve_decision. Defined.

Definition type_of (v : pyval) : pyclass :=
  match v with
  | PyNone => c_NoneType
  | PyBool _ => c_bool
  | PyInt _ => c_int
  | PyFloat _ => c_float
  | PyStr _ => c_str
  | PyList _ => c_list
  | PyTuple _ => c_tuple
  | PyDict _ => c_dict
  | NpInt32 _ => c_np_int32
  | NpInt64 _ => c_np_int64
  | NpFloat32 _ => c_np_float32
  | NpFloat64 _ => c_np_float64
  | NdArray _ => c_np_ndarray
  end.

(** [v is None] *)
Definition is_none (v : pyval) : bool :=
  match v with
  | PyNone => true
  | _ => false
  end.

(** [bool] derives from [int], [numpy.float64] from [float] *)
Definition subclass (c d : pyclass) : bool :=
  (bool_decide (c = d)
   || match c, d with
      | c_bool, c_int => true
      | c_np_float64, c_float => true
      | _, _ => false
      end)%bool.

(** [isinstance(v, classes)] for a tuple of classes *)
Definition isinstance (v : pyval) (classes : list pyclass) : bool :=
  existsb (subclass (type_of v)) classes.

(** ** [format(v, spec)] *)

Inductive align := AlignLeft | AlignRight | AlignCenter.

Record format_spec : Type := {
  fs_align : option align;
  fs_width : nat;
  fs_prec : option nat;
  fs_type : option ascii;
}.

Fixpoint span_digits (s : string) : string * string :=
  match s with
  | String c s' =>
      if is_digit c then let '(d, r) := span_digits s' in (String c d, r)
      else (EmptyString, s)
  | EmptyString => (EmptyString, EmptyString)
  end.

Definition nat_of_digits (s : string) : nat :=
  Z.to_nat (default 0 (digits_value_aux s 0)).

(** the part [[align][width][.precision][type]] of the format
    specification language; other options are not modelled *)
Definition parse_spec (s : string) : result format_spec :=
  let '(al, s1) :=
    match s with
    | String "<" r => (Some AlignLeft, r)
    | String ">" r => (Some AlignRight, r)
    | String "^" r => (Some AlignCenter, r)
    | _ => (None, s)
    end in
  let '(w, s2) := span_digits s1 in
  match w with
  | String "0" _ => Raise (Unmodelled "zero padding")
  | _ =>
      '(pr, s3) ←
        match s2 with
        | String "." r =>
            let '(p, r') := span_digits r in
            match p with
            | EmptyString => Raise ValueError
            | _ => Ok (Some (nat_of_digits p), r')
            end
        | _ => Ok (None, s2)
        end;
      match s3 with
      | EmptyString => Ok (Build_format_spec al (nat_of_digits w) pr None)
      | String c EmptyString =>
          if (Nat.leb 65 (nat_of_ascii c) && Nat.leb (nat_of_ascii c) 122)%bool
          then Ok (Build_format_spec al (nat_of_digits w) pr (Some c))
          else Raise (Unmodelled "format option")
      | _ => Raise (Unmodelled "format option")
      end
  end.

Definition pad (default_align : align) (sp : format_spec) (s : string) : string :=
  match default default_align (fs_align sp) with
  | AlignLeft => ljust (fs_width sp) s
  | AlignRight => rjust (fs_width sp) s
  | AlignCenter =>
      let k := (fs_width sp - String.length s)%nat in
      spaces (k / 2) +:+ s +:+ spaces (k - k / 2)
  end.

Definition format_float (sp : format_spec) (x : float) : result string :=
  match fs_type sp with
  | None => Ok (pad AlignRight sp (float_str FtNone (fs_prec sp) x))
  | Some "e"%char => Ok (pad AlignRight sp (float_str FtE (fs_prec sp) x))
  | Some "f"%char => Ok (pad AlignRight sp (float_str FtF (fs_prec sp) x))
  | Some "g"%char => Ok (pad AlignRight sp (float_str FtG (fs_prec sp) x))
  | Some "d"%char | Some "s"%char | Some "x"%char | Some "o"%char
  | Some "b"%char | Some "c"%char | Some "X"%char => Raise ValueError
  | Some _ => Raise (Unmodelled "presentation type")
  end.

Definition format_int (sp : format_spec) (n : Z) : result string :=
  match fs_type sp with
  | None | Some "d"%char =>
      match fs_prec sp with
      | Some _ => Raise ValueError
      | None => Ok (pad AlignRight sp (str_of_int n))
      end
  | Some "e"%char | Some "f"%char | Some "g"%char =>
      x ← float_of_int n; format_float sp x
  | Some "s"%char => Raise ValueError
  | Some _ => Raise (Unmodelled "presentation type")
  end.

Definition format_str (sp : format_spec) (s : string) : result string :=
  match fs_type sp with
  | None | Some "s"%char =>
      let t := match fs_prec sp with
               | Some p => substring 0 p s
               | None => s
               end in
      Ok (pad AlignLeft sp t)
  | Some _ => Raise ValueError
  end.

(** [format(v, spec)] for a non-empty [spec] *)
Definition format (spec : string) (v : pyval) : result string :=
  match spec with
  | EmptyString => Raise (Unmodelled "empty format specification")
  | _ =>
      match v with
      | PyStr s => sp ← parse_spec spec; format_str sp s
      | PyInt n | NpInt32 n | NpInt64 n => sp ← parse_spec spec; format_int sp n
      | PyBool b => sp ← parse_spec spec; format_int sp (if b then 1 else 0)
      | PyFloat x | NpFloat64 x => sp ← parse_spec spec; format_float sp x
      | NpFloat32 _ => Raise (Unmodelled "binary32")
      | PyNone | PyList _ | PyTuple _ | PyDict _ | NdArray _ =>
          Raise (TypeError "unsupported format string")
      end
  end.

(** [fmt.format(v)] for a format string [fmt] made of one replacement
    field, ["{:spec}"] *)
Definition str_format (fmt : string) (v : pyval) : result string :=
  match fmt with
  | String "{" (String ":" rest) =>
      match last_char rest with
      | Some "}"%char =>
          let spec := drop_last 1 rest in
          if (contains "{" spec || contains "}" spec)%bool
          then Raise (Unmodelled "format string")
          else format spec v
      | _ => Raise (Unmodelled "format string")
      end
  | _ => Raise (Unmodelled "format string")
  end.

End Py.

(* ===================================================================== *)
(** * [toughio/_io/input/tough/_helpers.py]                                *)
(* ===================================================================== *)

Module Helpers.
Import Py.

Definition scalar_classes : list pyclass :=
  [c_int; c_float; c_np_int32; c_np_int64; c_np_float32; c_np_float64].

(** the table [str_to_dtype] *)
Definition str_to_dtype : gmap string (list pyclass) :=
  list_to_map [
    ("int", [c_int; c_np_int32; c_np_int64]);
    ("float", [c_float; c_np_float32; c_np_float64]);
    ("str", [c_str]);
    ("bool", [c_bool]);
    ("str_int", [c_str; c_int; c_np_int32; c_np_int64]);
    ("array_like", [c_list; c_tuple; c_np_ndarray]);
    ("dict", [c_dict]);
    ("scalar", scalar_classes);
    ("scalar_array_like",
       [c_int; c_float; c_list; c_tuple; c_np_int32; c_np_int64;
        c_np_float32; c_np_float64; c_np_ndarray]);
    ("str_array_like", [c_str; c_list; c_tuple; c_np_ndarray])
  ].

(** ** Parameter validator *)

(** ["{}".format(k)] for a dictionary key *)
Definition key_str (k : key) : string :=
  match k with
  | KStr s => s
  | KInt n => str_of_int n
  end.

(** truth value of the optional [keys] path *)
Definition keys_given (keys : option string) : option string :=
  match keys with
  | Some EmptyString | None => None
  | Some p => Some p
  end.

Definition unknown_key_warning (k : key) (keys : option string) : string :=
  "Unknown key '" +:+ key_str k +:+ "'" +:+
  match keys_given keys with
  | Some p => " in " +:+ p
  | None => ""
  end +:+ ". Skipping.".

Definition invalid_type_message (k : key) (keys : option string) (ty : string)
  : string :=
  "Invalid type for parameter '" +:+ key_str k +:+ "' " +:+
  match keys_given keys with
  | Some p => "in " +:+ p +:+ " "
  | None => ""
  end +:+ "(expected " +:+ ty +:+ ").".

(** The inner function [_check_parameters] of [check_parameters]: the
    items of [params] are visited in the order of the dictionary; the
    warnings logged so far are threaded through, and survive an exception. *)
Fixpoint _check_parameters (input_types : gmap key string)
    (params : list (key * pyval)) (keys : option string) (log : list string)
  : list string * result unit :=
  match params with
  | [] => (log, Ok ())
  | (k, v) :: rest =>
      match input_types !! k with
      | None =>
          _check_parameters input_types rest keys
            (log ++ [unknown_key_warning k keys])
      | Some ty =>
          match str_to_dtype !! ty with
          | None => (log, Raise KeyError)
          | Some input_type =>
              if negb (is_none v || isinstance v input_type)
              then (log, Raise (TypeError (invalid_type_message k keys ty)))
              else _check_parameters input_types rest keys log
          end
      end
  end.

(** ** Record codec *)

(** [str2float] *)
Definition str2float (s : string) : result float :=
  match float_of_str s with
  | Ok x => Ok x
  | Raise ValueError =>
      let significand := drop_last 4 s in
      let exponent := take_last 4 s in
      float_of_str (significand +:+ "e" +:+ exponent)
  | Raise e => Raise e
  end.


Definition hd_str (l : list string) : string := default "" (head l).



(** [float(x)] *)
Definition to_float (x : pyval) : result float :=
  match x with
  | PyInt n | NpInt32 n | NpInt64 n => float_of_int n
  | PyBool b => Ok (if b then 1%float else 0%float)
  | PyFloat f | NpFloat64 f => Ok f
  | PyStr s => float_of_str s
  | NpFloat32 _ => Raise (Unmodelled "binary32")
  | _ => Raise (TypeError "float() argument")
  end.

(** [fmt[3:]] *)
Definition from3 (fmt : string) : string :=
  substring 3 (String.length fmt - 3) fmt.

(** the inner function [to_str] of [write_record] *)
Definition to_str (x : pyval) (fmt : string) : result string :=
  let x := match x with PyNone => PyStr "" | _ => x end in
  match x with
  | PyStr _ =>
      str_format (replace "f" "" (replace "e" "" (replace "g" "" fmt))) x
  | _ =>
      if contains "f" fmt then
        if contains "." fmt then
          n ← int_of_str (hd_str (split "." (from3 fmt)));
          tmp ← str_format fmt x;
          if Z.of_nat (String.length tmp) >? n
          then str_format (replace "f" "e" fmt) x
          else Ok tmp
        else
          n ← int_of_str (hd_str (split "f" (from3 fmt)));
          f ← to_float x;
          let tmp := repr_float f in
          if Z.of_nat (String.length tmp) >? n
          then
            str_format
              ("{:>" +:+ str_of_int n +:+ "." +:+ str_of_int (n - 7) +:+ "e}") x
          else str_format ("{:>" +:+ str_of_int n +:+ "}") (PyStr tmp)
      else str_format fmt x
  end.

Definition newline : string := String (ascii_of_nat 10) EmptyString.

(** ["{:80}\n".format("".join(data))] *)
Definition line80 (fields : list string) : string :=
  ljust 80 (join fields) +:+ newline.

(** [[to_str(d, f) for d, f in zip(data, fmt)]] *)
Definition to_strs (data : list pyval) (fmt : list string)
  : result (list string) :=
  mapM (fun '(d, f) => to_str d f) (zip data fmt).

(** the chunks [data[ncol * i : min(ncol * i + ncol, n)]] *)
Fixpoint chunks (count : nat) (ncol : nat) (data : list pyval)
  : list (list pyval) :=
  match count with
  | O => []
  | S count' => take ncol data :: chunks count' ncol (drop ncol data)
  end.

(** [write_record] *)
Definition write_record (data : list pyval) (fmt : list string) (multi : bool)
  : result (list string) :=
  if negb multi then
    fields ← to_strs data fmt;
    Ok [line80 fields]
  else
    let n := length data in
    let ncol := length fmt in
    match ncol with
    | O => Raise ZeroDivisionError
    | _ =>
        mapM (fun d => fields ← to_strs d fmt; Ok (line80 fields))
             (chunks ((n + ncol - 1) / ncol) ncol data)
    end.

(** [prune_nones_list]: drop the trailing [None] values *)
Fixpoint prune_nones_list (data : list pyval) : list pyval :=
  match data with
  | [] => []
  | x :: rest =>
      if existsb (fun v => negb (is_none v)) (x :: rest)
      then x :: prune_nones_list rest
      else []
  end.

End Helpers.

(* ===================================================================== *)
(** * [toughio/mesh/tough/_tough.py]                                       *)
(* ===================================================================== *)

Module Tough.
Import Py.

#[local] Open Scope float_scope.

(** ** numpy arrays of 3-D points *)

Definition vec3 : Type := float * float * float.

Definition vsub (a b : vec3) : vec3 :=
  let '(a0, a1, a2) := a in let '(b0, b1, b2) := b in
  (a0 - b0, a1 - b1, a2 - b2).

Definition vadd (a b : vec3) : vec3 :=
  let '(a0, a1, a2) := a in let '(b0, b1, b2) := b in
  (a0 + b0, a1 + b1, a2 + b2).

Definition vscale (a : vec3) (t : float) : vec3 :=
  let '(a0, a1, a2) := a in (a0 * t, a1 * t, a2 * t).

Definition vdiv (a : vec3) (t : float) : vec3 :=
  let '(a0, a1, a2) := a in (a0 / t, a1 / t, a2 / t).

(** [(A * B).sum(axis=1)] on one row, the three products added from left
    to right: the function [_dot] *)
Definition _dot (a b : vec3) : float :=
  let '(a0, a1, a2) := a in let '(b0, b1, b2) := b in
  a0 * b0 + a1 * b1 + a2 * b2.

(** [numpy.linalg.norm(a, axis=-1)] on one row *)
Definition norm (a : vec3) : float := sqrt (_dot a a).

(** the inner function [cross] of [_get_triangle_normals] *)
Definition cross (a b : vec3) : vec3 :=
  let '(a0, a1, a2) := a in let '(b0, b1, b2) := b in
  (a1 * b2 - a2 * b1, a2 * b0 - a0 * b2, a0 * b1 - a1 * b0).

(** [a[i]] for a numpy array: a negative index counts from the end *)
Definition np_index {A} (a : list A) (i : Z) : result A :=
  let n := Z.of_nat (length a) in
  let k := if (i <? 0)%Z then (i + n)%Z else i in
  if (k <? 0)%Z then Raise IndexError
  else of_option IndexError (a !! Z.to_nat k).

(** [numpy.concatenate(l)] *)
Definition np_concatenate {A} (l : list (list A)) : result (list A) :=
  match l with
  | [] => Raise ValueError
  | _ => Ok (concat l)
  end.

(** truth value of an array entry *)
Definition truthy (b : Z) : bool := negb (b =? 0)%Z.

(** [numpy.where(mask, x, y)] on one entry *)
Definition np_where {A} (mask : Z) (x y : A) : A :=
  if truthy mask then x else y.

(** ** The mesh *)

(** Per-cell arrays are kept per group of cells of one shape, as in the
    mesh object; [cell_data] and [field_data] are dictionaries, in the
    order of their keys. *)
Record mesh : Type := {
  points : list vec3;
  centers : list (list vec3);
  labels : list (list string);
  volumes : list (list float);
  connectivity : list (list (list Z));
  faces : list (list (list (list Z)));
  cell_data : list (string * list (list Z));
  field_data : list (string * (Z * Z));
  n_cells : nat;
}.

Fixpoint assoc {A} (k : string) (d : list (string * A)) : option A :=
  match d with
  | [] => None
  | (k', v) :: d' => if String.eqb k k' then Some v else assoc k d'
  end.

Definition meshio_data : list string :=
  ["avsucd:material"; "flac3d:zone"; "gmsh:physical"; "medit:ref";
   "tough:material"].

(** ** Faces *)

Inductive face_type := triangle | quad.

#[export] Instance face_type_eq_dec : EqDecision face_type.
Proof. solve_decision. Defined.

(** [numvert_to_face_type[n]] *)
Definition numvert_to_face_type (n : nat) : result face_type :=
  match n with
  | 3%nat => Ok triangle
  | 4%nat => Ok quad
  | _ => Raise KeyError
  end.

Fixpoint insert_sorted (x : Z) (l : list Z) : list Z :=
  match l with
  | [] => [x]
  | y :: l' => if (x <=? y)%Z then x :: l else y :: insert_sorted x l'
  end.

(** [numpy.sort] of one row *)
Definition sort_row (l : list Z) : list Z := foldr insert_sorted [] l.

(** number of valid entries of a face slot: [(face >= 0).sum(axis=-1)] *)
Definition numvert (f : list Z) : nat :=
  length (filter (fun k => (0 <=? k)%Z = true) f).

(** the faces of one kind, in the order of the cells, each with the index
    of its cell: the loop of [_get_faces] *)
Fixpoint collect_faces (i : nat) (faces : list (list (list Z)))
  : result (list (face_type * (list Z * nat))) :=
  match faces with
  | [] => Ok []
  | face :: rest =>
      here ← mapM (fun f =>
                let n := numvert f in
                match n with
                | O => Ok []
                | _ => ft ← numvert_to_face_type n; Ok [(ft, (take n f, i))]
                end) face;
      there ← collect_faces (S i) rest;
      Ok (concat here ++ there)
  end.

Definition of_kind (ft : face_type) (l : list (face_type * (list Z * nat)))
  : list (list Z * nat) :=
  map snd (filter (fun x => fst x = ft) l).

(** a dictionary with the keys [triangle] and [quad], in this order, from
    which an empty entry has been removed *)
Definition face_dict (A : Type) : Type := list (face_type * list A).

Definition make_dict {A} (tri qua : list A) : face_dict A :=
  (match tri with [] => [] | _ => [(triangle, tri)] end) ++
  (match qua with [] => [] | _ => [(quad, qua)] end).

Definition dict_get {A} (ft : face_type) (d : face_dict A) : result (list A) :=
  of_option KeyError (snd <$> find (fun x => bool_decide (fst x = ft)) d).

(** [_get_faces] *)
Definition _get_faces (faces : list (list (list Z)))
  : result (face_dict (list Z) * face_dict nat) :=
  all ← collect_faces 0 faces;
  let tri := of_kind triangle all in
  let qua := of_kind quad all in
  Ok (make_dict (map (fun x => sort_row (fst x)) tri)
                (map (fun x => sort_row (fst x)) qua),
      make_dict (map snd tri) (map snd qua)).

(** [_get_triangle_normals]: for each face [c], the points [c[islice]]
    and the cross product of the two edges from the first of them *)
Definition _get_triangle_normals (m : mesh) (faces : list (list Z))
    (islice : list Z) : result (list vec3) :=
  mapM (fun c =>
          tri ← mapM (fun k => idx ← np_index c k; np_index (points m) idx)
                     islice;
          match tri with
          | [t0; t1; t2] => Ok (cross (vsub t1 t0) (vsub t2 t0))
          | _ => Raise IndexError
          end) faces.

(** [face_normals[i].append(x)] *)
Definition append_at {A} (l : list (list A)) (i : nat) (x : A)
  : result (list (list A)) :=
  match l !! i with
  | Some row => Ok (<[i := row ++ [x]]> l)
  | None => Raise IndexError
  end.

Fixpoint reorganize (face_normals : list (list vec3))
    (face_areas : list (list float)) (rows : list (nat * (vec3 * float)))
  : result (list (list vec3) * list (list float)) :=
  match rows with
  | [] => Ok (face_normals, face_areas)
  | (i, (normal, area)) :: rest =>
      fn ← append_at face_normals i normal;
      fa ← append_at face_areas i area;
      reorganize fn fa rest
  end.

(** the unit normals and the areas, in the order of the faces in
    [faces_dict]: the first half of [_get_face_normals_areas] *)
Definition normals_areas (m : mesh) (faces_dict : face_dict (list Z))
  : result (list vec3 * list float) :=
  per_kind ← mapM (fun kv => _get_triangle_normals m (snd kv) [0; 1; 2]%Z)
                  faces_dict;
  normals ← np_concatenate per_kind;
  let normals_mag := map norm normals in
  let normals := zip_with vdiv normals normals_mag in
  quads ← dict_get quad faces_dict;
  areas ←
    match quads with
    | [] => Ok normals_mag
    | _ =>
        per_kind ← mapM (fun kv =>
                      if bool_decide (fst kv = quad)
                      then _get_triangle_normals m (snd kv) [0; 2; 3]%Z
                      else Ok (map (fun _ => (0, 0, 0)) (snd kv)))
                    faces_dict;
        tmp ← np_concatenate per_kind;
        Ok (zip_with (fun a t => a + norm t) normals_mag tmp)
    end;
  Ok (normals, map (fun a => a * 0.5) areas).

(** [_get_face_normals_areas] *)
Definition _get_face_normals_areas (m : mesh)
    (faces_dict : face_dict (list Z)) (faces_cell : face_dict nat)
  : result (list (list vec3) * list (list float)) :=
  '(normals, areas) ← normals_areas m faces_dict;
  iface ← np_concatenate (map snd faces_cell);
  reorganize (replicate (n_cells m) []) (replicate (n_cells m) [])
             (zip iface (zip normals areas)).

(** ** Geometry of a connection *)

(** [_intersection_line_plane] on one row *)
Definition _intersection_line_plane (center line int_point int_normal : vec3)
  : vec3 :=
  let tmp := _dot (vsub int_point center) int_normal / _dot line int_normal in
  vadd center (vscale line tmp).

(** the constant [1.0e-9]: the nodal distance of a boundary element *)
Definition boundary_distance : float := 0x1.12e0be826d695p-30.

(** [_distance_point_plane] on one row *)
Definition _distance_point_plane (center int_point int_normal : vec3)
    (mask : Z) : float :=
  np_where mask boundary_distance
    (abs (_dot (vsub center int_point) int_normal)).

(** [_isot] on one row *)
Definition _isot (line : vec3) : Z :=
  let '(l0, l1, l2) := line in
  let mask := map (fun x => negb (PrimFloat.eqb x 0)) [l0; l1; l2] in
  if (length (filter (fun b => b = true) mask) =? 1)%nat
  then match mask with
       | true :: _ => 1
       | _ :: true :: _ => 2
       | _ => 3
       end%Z
  else 1%Z.

(** ** Writing the blocks *)

(** What a writer did: the strings passed to [f.write], the warnings
    logged, and how it ended. *)
Record effect : Type := {
  written : list string;
  logged : list string;
  outcome : result unit;
}.

Definition failed (e : exn) : effect := Build_effect [] [] (Raise e).

(** run [k] after [a], unless [a] raised *)
Definition and_then (a : effect) (k : effect) : effect :=
  match outcome a with
  | Ok _ => Build_effect (written a ++ written k) (logged a ++ logged k)
                         (outcome k)
  | Raise _ => a
  end.

(** [for x in l: f.write(record(x))] *)
Fixpoint write_records {A} (record : A -> result string) (l : list A) : effect :=
  match l with
  | [] => Build_effect [] [] (Ok ())
  | x :: l' =>
      match record x with
      | Ok s => and_then (Build_effect [s] [] (Ok ())) (write_records record l')
      | Raise e => failed e
      end
  end.

Definition newline : string := Helpers.newline.

Definition header : string :=
  "----1----*----2----*----3----*----4----*----5----*----6----*----7----*----8".

(** the decorator [block] *)
Definition block (keyword : string) (body : effect) : effect :=
  and_then (Build_effect [keyword +:+ header +:+ newline] [] (Ok ()))
    (and_then body (Build_effect [newline] [] (Ok ()))).

(** a format string made of replacement fields with the given
    specifications, applied to as many arguments *)
Definition format_fields (specs : list string) (args : list pyval)
  : result string :=
  fields ← mapM (fun '(sp, a) => format sp a) (zip specs args);
  Ok (join fields).

(** [_get_rocks] *)
Definition _get_rocks (m : mesh) : result (list pyval) :=
  let mat_data :=
    find (fun k => bool_decide (k ∈ meshio_data)) (map fst (cell_data m)) in
  match mat_data with
  | Some k =>
      groups ← of_option KeyError (assoc k (cell_data m));
      rocks ← np_concatenate groups;
      match field_data m with
      | [] => Ok (map NpInt64 rocks)
      | fd =>
          mapM (fun rock =>
                  of_option KeyError
                    (last (omap (fun '(name, (id, dim)) =>
                             if ((dim =? 3) && (id =? rock))%Z
                             then Some (PyStr name) else None) fd)))
               rocks
      end
  | None => Ok (replicate (n_cells m) (NpInt64 1))
  end.

(** [a * b] for two arrays of one shape *)
Definition np_mul (a b : list float) : result (list float) :=
  if (length a =? length b)%nat then Ok (zip_with PrimFloat.mul a b)
  else Raise ValueError.

(** the constant [1.0e50] *)
Definition boundary_volume_factor : float := 0x1.11b0ec57e649ap+166.

Definition eleme_specs : list string :=
  ["5.5"; ">5"; ">5"; ">5"; "10.4e"; ">10"; ">10"; "10.3e"; "10.3e"; "10.3e"].

Definition eleme_record (x : string * pyval * float * vec3) : result string :=
  let '(label, rock, volume, (x0, x1, x2)) := x in
  s ← format_fields eleme_specs
        [PyStr label; PyStr ""; PyStr ""; rock; NpFloat64 volume; PyStr "";
         PyStr ""; NpFloat64 x0; NpFloat64 x1; NpFloat64 x2];
  Ok (s +:+ newline).

Definition zip4 {A B C D} (a : list A) (b : list B) (c : list C) (d : list D)
  : list (A * B * C * D) := zip (zip (zip a b) c) d.

(** the body of [_write_eleme] *)
Definition eleme_body (m : mesh) (labels : list string) (nodes : list vec3)
  : effect :=
  let prepared :=
    rocks ← _get_rocks m;
    volumes ← np_concatenate (volumes m);
    volumes ←
      match assoc "boundary_condition" (cell_data m) with
      | Some groups =>
          bc ← np_concatenate groups;
          np_mul volumes
            (map (fun b => np_where b boundary_volume_factor 1) bc)
      | None => Ok volumes
      end;
    Ok (zip4 labels rocks volumes nodes) in
  match prepared with
  | Ok iterables => write_records eleme_record iterables
  | Raise e => failed e
  end.

(** [_write_eleme] *)
Definition _write_eleme (m : mesh) (labels : list string) (nodes : list vec3)
  : effect := block "ELEME" (eleme_body m labels nodes).

(** ** Connections *)

(** One entry of the lists [clabels], [centers], [int_points],
    [int_normals], [areas] and [bounds], which grow together. *)
Record connection : Type := {
  clabel : string;
  center1 : vec3;
  center2 : vec3;
  int_point : vec3;
  int_normal : vec3;
  area : float;
  bound1 : Z;
  bound2 : Z;
}.

(** the inner loop of [_write_conne] over the face slots of cell [i];
    [body iface j] is what is appended for neighbour [j] *)
Fixpoint conne_slots {A} (body : nat -> Z -> result A) (cell_list : gset Z)
    (iface : nat) (neighbor : list Z) : result (list A) :=
  match neighbor with
  | [] => Ok []
  | j :: rest =>
      if ((0 <=? j)%Z && negb (bool_decide (j ∈ cell_list)))%bool then
        r ← body iface j;
        rs ← conne_slots body cell_list (S iface) rest;
        Ok (r :: rs)
      else conne_slots body cell_list (S iface) rest
  end.

Definition not_connected_warning (label : string) : string :=
  newline +:+ "Element '" +:+ label +:+ "' is not connected to the grid.".

(** the outer loop of [_write_conne] over the cells, from cell [i] on:
    the entries appended and the warnings logged *)
Fixpoint conne_cells {A} (body : nat -> nat -> Z -> result A)
    (labels : list string) (cell_list : gset Z) (i : nat)
    (neighbors : list (list Z)) : list string * result (list A) :=
  match neighbors with
  | [] => ([], Ok [])
  | neighbor :: rest =>
      if existsb (fun j => (0 <=? j)%Z) neighbor then
        match conne_slots (body i) cell_list 0 neighbor with
        | Ok rs =>
            let '(log, r) :=
              conne_cells body labels ({[Z.of_nat i]} ∪ cell_list) (S i) rest in
            (log, rs' ← r; Ok (rs ++ rs'))
        | Raise e => ([], Raise e)
        end
      else
        match labels !! i with
        | Some label =>
            let '(log, r) :=
              conne_cells body labels ({[Z.of_nat i]} ∪ cell_list) (S i) rest in
            (not_connected_warning label :: log, r)
        | None => ([], Raise IndexError)
        end
  end.

(** the cells and face slots for which an entry is appended, in order:
    the loop run with a body that records its arguments *)
Definition conne_trace (neighbors : list (list Z)) : list (nat * nat * Z) :=
  match conne_cells (fun i iface j => Ok (i, iface, j))
                    (map (fun _ => "") neighbors) ∅ 0 neighbors with
  | (_, Ok l) => l
  | (_, Raise _) => []
  end.

(** what the loop appends for face slot [iface] of cell [i], whose
    neighbour is cell [j] *)
Definition conne_entry (m : mesh) (labels : list string) (nodes : list vec3)
    (faces : list (list (list Z))) (face_normals : list (list vec3))
    (face_areas : list (list float)) (bc : list Z)
    (i iface : nat) (j : Z) : result connection :=
  li ← of_option IndexError (labels !! i);
  lj ← np_index labels j;
  lbl ← format_fields ["5.5"; "5.5"] [PyStr li; PyStr lj];
  ni ← of_option IndexError (nodes !! i);
  nj ← np_index nodes j;
  face ← of_option IndexError (faces !! i ≫= (.!! iface));
  k ← of_option IndexError (head (filter (fun k => (0 <=? k)%Z = true) face));
  pt ← np_index (points m) k;
  normal ← of_option IndexError (face_normals !! i ≫= (.!! iface));
  a ← of_option IndexError (face_areas !! i ≫= (.!! iface));
  bi ← of_option IndexError (bc !! i);
  bj ← np_index bc j;
  Ok (Build_connection lbl ni nj pt normal a bi bj).

(** the line from the first centre to the second:
    [numpy.diff(centers, axis=1)[:, 0]] *)
Definition line_of (c : connection) : vec3 := vsub (center2 c) (center1 c).

(** the two nodal distances of a connection *)
Definition nodal_distances (nodal_distance : string) (c : connection)
  : result (float * float) :=
  if String.eqb nodal_distance "line" then
    let fp := _intersection_line_plane (center1 c) (line_of c)
                (int_point c) (int_normal c) in
    Ok (np_where (bound1 c) boundary_distance (norm (vsub (center1 c) fp)),
        np_where (bound2 c) boundary_distance (norm (vsub (center2 c) fp)))
  else if String.eqb nodal_distance "orthogonal" then
    Ok (_distance_point_plane (center1 c) (int_point c) (int_normal c)
          (bound1 c),
        _distance_point_plane (center2 c) (int_point c) (int_normal c)
          (bound2 c))
  else Raise UnboundLocalError.

(** cosine of the angle to the vertical:
    [numpy.dot(lines, g_vec) / numpy.linalg.norm(lines, axis=1)] *)
Definition angle_of (c : connection) : float :=
  _dot (line_of c) (0, 0, 1) / norm (line_of c).

Definition conne_specs : list string :=
  ["10.10"; ">5"; ">5"; ">5"; ">5g"; "10.4e"; "10.4e"; "10.4e"; "10.3e"].

Definition conne_record (x : string * Z * float * float * float * float)
  : result string :=
  let '(label, isot, d1, d2, area, angle) := x in
  s ← format_fields conne_specs
        [PyStr label; PyStr ""; PyStr ""; PyStr ""; NpInt64 isot; NpFloat64 d1;
         NpFloat64 d2; NpFloat64 area; NpFloat64 angle];
  Ok (s +:+ newline).

(** the arguments of the records of the CONNE block, one per connection *)
Definition conne_iterables (nodal_distance : string) (cs : list connection)
  : result (list (string * Z * float * float * float * float)) :=
  match cs with
  | [] => Raise AxisError
  | _ =>
      mapM (fun c =>
              '(d1, d2) ← nodal_distances nodal_distance c;
              Ok (clabel c, _isot (line_of c), d1, d2, area c, angle_of c)) cs
  end.

(** the entries appended by the loop of [_write_conne], with the warnings
    it logs *)
Definition conne_connections (m : mesh) (labels : list string)
    (nodes : list vec3) : list string * result (list connection) :=
  let prepared :=
    neighbors ← np_concatenate (connectivity m);
    faces ← np_concatenate (faces m);
    '(faces_dict, faces_cell) ← _get_faces faces;
    '(face_normals, face_areas) ←
        _get_face_normals_areas m faces_dict faces_cell;
    bc ← match assoc "boundary_condition" (cell_data m) with
         | Some groups => np_concatenate groups
         | None => Ok (replicate (n_cells m) 0%Z)
         end;
    Ok (neighbors, conne_entry m labels nodes faces face_normals face_areas bc)
  in
  match prepared with
  | Ok (neighbors, body) => conne_cells body labels ∅ 0 neighbors
  | Raise e => ([], Raise e)
  end.

(** the body of [_write_conne] *)
Definition conne_body (m : mesh) (labels : list string) (nodes : list vec3)
    (nodal_distance : string) : effect :=
  let '(log, r) := conne_connections m labels nodes in
  match r ≫= conne_iterables nodal_distance with
  | Ok iterables =>
      and_then (Build_effect [] log (Ok ()))
               (write_records conne_record iterables)
  | Raise e => Build_effect [] log (Raise e)
  end.

(** [_write_conne] *)
Definition _write_conne (m : mesh) (labels : list string) (nodes : list vec3)
    (nodal_distance : string) : effect :=
  block "CONNE" (conne_body m labels nodes nodal_distance).

(** [write]: on the left an exception raised before the file is opened;
    on the right what the two writers did to the file *)
Definition write (m : mesh) (nodal_distance : string) : exn + effect :=
  if negb (String.eqb nodal_distance "line"
           || String.eqb nodal_distance "orthogonal")
  then inl AssertionError
  else
    match np_concatenate (centers m), np_concatenate (labels m) with
    | Raise e, _ | Ok _, Raise e => inl e
    | Ok nodes, Ok labels =>
        inr (and_then (_write_eleme m labels nodes)
                      (_write_conne m labels nodes nodal_distance))
    end.

(** ** One record per pair of adjacent cells

    The entries appended for the face slots of one cell and for the cells
    from [i] on, as lists: the two loops without their body. *)
Fixpoint slots_trace (cell_list : gset Z) (i iface : nat) (neighbor : list Z)
  : list (nat * nat * Z) :=
  match neighbor with
  | [] => []
  | j :: rest =>
      (if ((0 <=? j)%Z && negb (bool_decide (j ∈ cell_list)))%bool
       then [(i, iface, j)] else [])
      ++ slots_trace cell_list i (S iface) rest
  end.

Fixpoint cells_trace (cell_list : gset Z) (i : nat) (neighbors : list (list Z))
  : list (nat * nat * Z) :=
  match neighbors with
  | [] => []
  | neighbor :: rest =>
      slots_trace cell_list i 0 neighbor
      ++ cells_trace ({[Z.of_nat i]} ∪ cell_list) (S i) rest
  end.

Definition listed (neighbors : list (list Z)) (i : nat) (j : Z) : Prop :=
  ∃ row, neighbors !! i = Some row ∧ j ∈ row.

Definition symmetric (neighbors : list (list Z)) : Prop :=
  ∀ a b : nat, listed neighbors a (Z.of_nat b) → listed neighbors b (Z.of_nat a).

Definition no_repeats (neighbors : list (list Z)) : Prop :=
  ∀ i row, neighbors !! i = Some row →
    NoDup (filter (fun j => (0 <= j)%Z) row).

Definition joins (a b : nat) (t : nat * nat * Z) : Prop :=
  (t.1.1 = a ∧ t.2 = Z.of_nat b) ∨ (t.1.1 = b ∧ t.2 = Z.of_nat a).

#[export] Instance joins_dec a b t : Decision (joins a b t).
Proof. unfold joins. apply _. Defined.

Definition count_pair (a b : nat) (trace : list (nat * nat * Z)) : nat :=
  length (filter (joins a b) trace).

(** number of entries appended by cell [a] for neighbour [j] *)
Definition hits (a : nat) (j : Z) (trace : list (nat * nat * Z)) : nat :=
  length (filter (fun t => t.1.1 = a ∧ t.2 = j) trace).

Definition occurrences (j : Z) (row : list Z) : nat :=
  length (filter (fun k => k = j) row).

End Tough.


(* ===================================================================== *)
(** * Specification-side notions and sample inputs                         *)
(* ===================================================================== *)

Module Spec.
Import Py Helpers Tough.

#[local] Open Scope float_scope.

(** the area of the faces of every cell, as [_write_conne] obtains them *)
Definition face_areas_of (m : mesh) : result (list (list float)) :=
  faces ← np_concatenate (faces m);
  '(faces_dict, faces_cell) ← _get_faces faces;
  '(_, face_areas) ← _get_face_normals_areas m faces_dict faces_cell;
  Ok face_areas.

(** The area of a quadrilateral split along the diagonal from its first
    to its third vertex, the vertices taken in the order of the face:
    [0.5 * (|cross(v1 - v0, v2 - v0)| + |cross(v2 - v0, v3 - v0)|)]. *)
Definition quad_area_as_given (pts : list vec3) (face : list Z) : result float :=
  vs ← mapM (np_index pts) face;
  match vs with
  | [v0; v1; v2; v3] =>
      Ok (0.5 * (norm (cross (vsub v1 v0) (vsub v2 v0))
                 + norm (cross (vsub v2 v0) (vsub v3 v0))))
  | _ => Raise ValueError
  end.

(** The nodal distances as the specification words them, written out on
    the coordinates.  Orthogonal mode: the absolute value of the signed
    distance from the centre [c] to the plane through [p] with normal
    [n]. *)
Definition plane_distance (c p n : vec3) : float :=
  let '(c0, c1, c2) := c in
  let '(p0, p1, p2) := p in
  let '(n0, n1, n2) := n in
  abs ((c0 - p0) * n0 + (c1 - p1) * n1 + (c2 - p2) * n2).

(** Line mode: the distance from the centre [c] to the point where the
    line through the two centres [a] and [b] meets that plane. *)
Definition line_distance (c a b p n : vec3) : float :=
  let '(c0, c1, c2) := c in
  let '(a0, a1, a2) := a in
  let '(b0, b1, b2) := b in
  let '(p0, p1, p2) := p in
  let '(n0, n1, n2) := n in
  let t := ((p0 - a0) * n0 + (p1 - a1) * n1 + (p2 - a2) * n2)
           / ((b0 - a0) * n0 + (b1 - a1) * n1 + (b2 - a2) * n2) in
  let '(f0, f1, f2) :=
    (a0 + (b0 - a0) * t, a1 + (b1 - a1) * t, a2 + (b2 - a2) * t) in
  sqrt ((c0 - f0) * (c0 - f0) + (c1 - f1) * (c1 - f1) + (c2 - f2) * (c2 - f2)).

Definition spec_distance (mode : string) (c a b p n : vec3) : float :=
  if String.eqb mode "line" then line_distance c a b p n
  else plane_distance c p n.


(** the rational [n / d] for [0 < d] *)
Definition frac_Q (f : Z * Z) : Q := Qmake (fst f) (Z.to_pos (snd f)).

(** every character of [s] satisfies [p] *)
Fixpoint all_chars (p : ascii -> bool) (s : string) : bool :=
  match s with
  | EmptyString => true
  | String c s' => p c && all_chars p s'
  end.




(** The record [c] is the one of the pair of the cells [i] and [j]
    ([t = (i, iface, j)]): it bears their two labels, cut or filled to
    five characters each, and their two centres. *)
Definition record_of (labels : list string) (nodes : list vec3)
    (t : nat * nat * Z) (c : connection) : Prop :=
  ∃ li lj,
    (0 <= t.2)%Z ∧
    labels !! t.1.1 = Some li ∧ labels !! Z.to_nat t.2 = Some lj ∧
    clabel c = (substring 0 5 li +:+ spaces (5 - String.length (substring 0 5 li)))
               +:+ (substring 0 5 lj +:+ spaces (5 - String.length (substring 0 5 lj))) ∧
    nodes !! t.1.1 = Some (center1 c) ∧
    nodes !! Z.to_nat t.2 = Some (center2 c).

(** A line of the codec as the specification words it: the fields side by
    side and in full, blanks up to 80 columns, a newline. *)
Definition padded_line (fields : list string) : string :=
  let body := foldr String.append "" fields in
  body +:+ spaces (80 - String.length body) +:+ String (ascii_of_nat 10) "".

(** a material, an integer or a name, fits the five columns of its field *)
Definition rock_fits (rock : pyval) : Prop :=
  match rock with
  | NpInt64 n => (String.length (str_of_int n) <= 5)%nat
  | PyStr name => (String.length name <= 5)%nat
  | _ => False
  end.

(** [x] in scientific notation with [p] decimals fits ten columns *)
Definition e_fits (p : nat) (x : float) : Prop :=
  (String.length (float_str FtE (Some p) x) <= 10)%nat.

(** the area found for face slot [iface] of cell [i] *)
Definition face_area_at (m : mesh) (i iface : nat) : result float :=
  areas ← face_areas_of m;
  of_option IndexError (areas !! i ≫= (.!! iface)).

(** a checker for [symmetric] *)
Definition symmetricb (neighbors : list (list Z)) : bool :=
  forallb (fun i =>
    forallb (fun j =>
      (j <? 0)%Z
      || bool_decide (Z.of_nat i ∈ default [] (neighbors !! Z.to_nat j)))
      (default [] (neighbors !! i)))
    (seq 0 (length neighbors)).

(** a checker for [no_repeats] *)
Definition no_repeatsb (neighbors : list (list Z)) : bool :=
  forallb (fun row => bool_decide (NoDup (filter (fun j => (0 <= j)%Z) row)))
          neighbors.

(** the float [123456789.123] *)
Definition x_123456789_123 : float := 0x1.d6f34547df3b6p+26.

(** the float [1.234e-5] *)
Definition x_1_234em5 : float := 0x1.9e0fcaf9380fcp-17.

(** the schema [{"a": "scalar"}] *)
Definition schema_a : gmap key string := {[ KStr "a" := "scalar" ]}.

(** Two hexahedra side by side along [x], sharing the face [x = 1]; the
    first one carries the boundary-condition flag. *)
Definition two_hexes : mesh := {|
  points := [(0, 0, 0); (1, 0, 0); (1, 1, 0); (0, 1, 0);
             (0, 0, 1); (1, 0, 1); (1, 1, 1); (0, 1, 1);
             (2, 0, 0); (2, 1, 0); (2, 0, 1); (2, 1, 1)];
  centers := [[(0.5, 0.5, 0.5); (1.5, 0.5, 0.5)]];
  labels := [["AAA00"; "AAA01"]];
  volumes := [[1; 2]];
  connectivity := [[[-1; -1; -1; 1; -1; -1]; [-1; -1; -1; -1; -1; 0]]]%Z;
  faces := [[ [[0; 3; 2; 1]; [4; 5; 6; 7]; [0; 1; 5; 4];
               [1; 2; 6; 5]; [2; 3; 7; 6]; [0; 4; 7; 3]];
              [[1; 2; 9; 8]; [5; 10; 11; 6]; [1; 8; 10; 5];
               [8; 9; 11; 10]; [9; 2; 6; 11]; [1; 5; 6; 2]] ]]%Z;
  cell_data := [("boundary_condition", [[1; 0]%Z])];
  field_data := [];
  n_cells := 2;
|}.

(** Two hexahedra on the square bases [0 <= x <= 4], [0 <= y <= 4] and
    [0 <= x <= 4], [-4 <= y <= 0], under the sloping roof [z = 2 + x / 2].
    They share the face [y = 0], a trapezium with corners [(0, 0, 0)],
    [(4, 0, 0)], [(4, 0, 4)], [(0, 0, 2)], of area 12. *)
Definition sloping_hexes : mesh := {|
  points := [(0, 0, 0); (4, 0, 0); (4, 4, 0); (0, 4, 0);
             (0, 0, 2); (4, 0, 4); (4, 4, 4); (0, 4, 2);
             (0, -4, 0); (4, -4, 0); (0, -4, 2); (4, -4, 4)];
  centers := [[(2, 2, 1.5); (2, -2, 1.5)]];
  labels := [["AAA00"; "AAA01"]];
  volumes := [[48; 48]];
  connectivity := [[[-1; -1; 1; -1; -1; -1]; [-1; -1; -1; -1; 0; -1]]]%Z;
  faces := [[ [[0; 3; 2; 1]; [4; 5; 6; 7]; [0; 1; 5; 4];
               [1; 2; 6; 5]; [2; 3; 7; 6]; [0; 4; 7; 3]];
              [[8; 0; 1; 9]; [10; 11; 5; 4]; [8; 9; 11; 10];
               [9; 1; 5; 11]; [1; 0; 4; 5]; [8; 10; 4; 0]] ]]%Z;
  cell_data := [];
  field_data := [];
  n_cells := 2;
|}.







End Spec.

(* ===================================================================== *)
(** * Properties                                                           *)
(* ===================================================================== *)

Import Py Helpers Tough Spec.

(** ** The connection loop *)

Section connections.

Lemma conne_slots_trace {A} (body : nat → nat → Z → result A) cl i iface row rows :
  conne_slots (body i) cl iface row = Ok rows →
  mapM (fun '(i, iface, j) => body i iface j) (slots_trace cl i iface row) = Ok rows.
Proof.
  revert iface rows; induction row as [|j row IH]; intros iface rows; simpl.
  - intros [= <-]. reflexivity.
  - destruct ((0 <=? j)%Z && negb (bool_decide (j ∈ cl)))%bool; simpl.
    + destruct (body i iface j) as [r|e]; simpl; [|discriminate].
      destruct (conne_slots (body i) cl (S iface) row) as [rs|e] eqn:E; simpl; [|discriminate].
      intros [= <-]. rewrite (IH _ _ E). reflexivity.
    + apply IH.
Qed.

Lemma mapM_app {A B} (f : A → result B) l1 l2 r1 r2 :
  mapM f l1 = Ok r1 → mapM f l2 = Ok r2 → mapM f (l1 ++ l2) = Ok (r1 ++ r2).
Proof.
  revert r1; induction l1 as [|a l1 IH]; intros r1; simpl.
  - intros [= <-]. auto.
  - destruct (f a) as [b|]; simpl; [|discriminate].
    destruct (mapM f l1) as [bs|]; simpl; [|discriminate].
    intros [= <-] H2. rewrite (IH bs eq_refl H2). reflexivity.
Qed.

Lemma conne_cells_trace {A} (body : nat → nat → Z → result A) labels cl i nbs log rows :
  conne_cells body labels cl i nbs = (log, Ok rows) →
  mapM (fun '(i, iface, j) => body i iface j) (cells_trace cl i nbs) = Ok rows.
Proof.
  revert cl i log rows; induction nbs as [|row nbs IH]; intros cl i log rows; simpl.
  - intros [= _ <-]. reflexivity.
  - destruct (existsb _ row) eqn:Hany.
    + destruct (conne_slots (body i) cl 0 row) as [rs|e] eqn:E; [|discriminate].
      destruct (conne_cells body labels _ (S i) nbs) as [log' r] eqn:E'.
      destruct r as [rs'|e]; simpl; [|discriminate].
      intros [= _ <-].
      apply mapM_app; [eapply conne_slots_trace; eauto | eapply IH; eauto].
    + assert (Hnil : slots_trace cl i 0 row = []).
      { clear -Hany. generalize 0%nat. induction row as [|j row IH]; intros n; simpl; auto.
        simpl in Hany. apply orb_false_iff in Hany as [-> Hany]. simpl. auto. }
      rewrite Hnil. simpl.
      destruct (labels !! i); [|discriminate].
      destruct (conne_cells body labels _ (S i) nbs) as [log' r] eqn:E'.
      intros [= _ ->]. eapply IH; eauto.
Qed.

Lemma hits_app a j l1 l2 : hits a j (l1 ++ l2) = (hits a j l1 + hits a j l2)%nat.
Proof. unfold hits. rewrite filter_app, length_app. reflexivity. Qed.

Lemma hits_slots cl i iface row a j :
  hits a j (slots_trace cl i iface row) =
  if decide (i = a ∧ (0 <= j)%Z ∧ j ∉ cl) then occurrences j row else 0%nat.
Proof.
  revert iface; induction row as [|k row IH]; intros iface; simpl.
  - destruct (decide _); reflexivity.
  - rewrite hits_app, IH. unfold hits, occurrences. rewrite filter_cons.
    destruct (Z.leb_spec 0 k); simpl;
      [destruct (bool_decide_reflect (k ∈ cl)); simpl|];
      repeat (rewrite ?filter_cons, ?filter_nil; simpl; destruct (decide _); simpl);
      try reflexivity; try lia; exfalso; intuition (subst; try lia; auto).
Qed.

Lemma hits_cells cl i nbs a j :
  (∀ k : Z, k ∈ cl ↔ (0 <= k < Z.of_nat i)%Z) →
  hits a j (cells_trace cl i nbs) =
  match nbs !! (a - i)%nat with
  | Some row =>
      if decide ((i <= a)%nat ∧ (Z.of_nat a <= j)%Z) then occurrences j row else 0%nat
  | None => 0%nat
  end.
Proof.
  revert cl i; induction nbs as [|row nbs IH]; intros cl i Hcl; simpl.
  - reflexivity.
  - rewrite hits_app, hits_slots, IH.
    2:{ intros k. rewrite elem_of_union, elem_of_singleton, Hcl. lia. }
    destruct (decide (i = a)) as [->|Hne].
    + replace (a - a)%nat with 0%nat by lia. simpl.
      replace (a - S a)%nat with 0%nat by lia.
      destruct nbs as [|row' nbs']; simpl;
        repeat (destruct (decide _)); try lia; try reflexivity;
        exfalso; rewrite Hcl in *; intuition lia.
    + destruct (decide (i = a ∧ _)) as [[? _]|_]; [congruence|]. simpl.
      destruct (decide (i <= a)%nat) as [Hle|Hgt].
      * replace (a - i)%nat with (S (a - S i)) by lia. simpl.
        destruct (nbs !! (a - S i)%nat); [|reflexivity].
        repeat destruct (decide _); try reflexivity; lia.
      * replace (a - i)%nat with 0%nat by lia. simpl.
        destruct (nbs !! (a - S i)%nat); repeat destruct (decide _); try reflexivity; lia.
Qed.

Lemma count_pair_hits a b trace :
  count_pair a b trace =
  if decide (a = b) then hits a (Z.of_nat a) trace
  else (hits a (Z.of_nat b) trace + hits b (Z.of_nat a) trace)%nat.
Proof.
  unfold count_pair, hits, joins.
  destruct (decide (a = b)) as [Heq|Hne].
  - subst b. induction trace as [|t trace IH]; [reflexivity|].
    rewrite !filter_cons.
    repeat (destruct (decide _); simpl); rewrite ?IH; try reflexivity; exfalso; tauto.
  - induction trace as [|t trace IH]; [reflexivity|].
    rewrite !filter_cons.
    repeat (destruct (decide _); simpl); rewrite ?IH; try lia; exfalso;
      intuition (subst; try lia; congruence).
Qed.

Lemma occurrences_pos j row : j ∈ row → (1 <= occurrences j row)%nat.
Proof.
  unfold occurrences. induction row as [|k row IH]; intros Hin.
  - apply elem_of_nil in Hin as [].
  - rewrite filter_cons. destruct (decide (k = j)); simpl; [lia|].
    apply elem_of_cons in Hin as [Heq|Hin]; [congruence|auto].
Qed.

Lemma occurrences_zero j row : j ∉ row → occurrences j row = 0%nat.
Proof.
  unfold occurrences. induction row as [|k row IH]; intros Hn; [reflexivity|].
  rewrite filter_cons. rewrite not_elem_of_cons in Hn. destruct Hn as [Hne Hn].
  destruct (decide _); [congruence|]. auto.
Qed.

Lemma occurrences_NoDup j row :
  (0 <= j)%Z → NoDup (filter (fun k => (0 <= k)%Z) row) → (occurrences j row <= 1)%nat.
Proof.
  intros Hj. unfold occurrences. induction row as [|k row IH]; simpl; [lia|].
  rewrite !filter_cons. destruct (decide (0 <= k)%Z).
  - intros Hnd. apply NoDup_cons in Hnd as [Hnotin Hnd].
    destruct (decide (k = j)) as [->|]; simpl; [|auto].
    enough (length (filter (fun k => k = j) row) = 0)%nat by lia.
    apply occurrences_zero. intros Hin. apply Hnotin.
    apply list_elem_of_filter. auto.
  - intros Hnd. destruct (decide (k = j)); [lia|]. auto.
Qed.

Lemma conne_cells_id_ok labels cl i nbs :
  (i + length nbs <= length labels)%nat →
  ∃ log, conne_cells (fun i iface j => Ok (i, iface, j)) labels cl i nbs
         = (log, Ok (cells_trace cl i nbs)).
Proof.
  revert cl i; induction nbs as [|row nbs IH]; intros cl i Hlen; simpl.
  - eauto.
  - simpl in Hlen. destruct (IH ({[Z.of_nat i]} ∪ cl) (S i)) as [log Hlog]; [lia|].
    rewrite Hlog.
    assert (Hs : ∀ iface, conne_slots (fun iface j => Ok (i, iface, j)) cl iface row
                 = Ok (slots_trace cl i iface row)).
    { clear. induction row as [|j row IH]; intros iface; simpl; [reflexivity|].
      rewrite IH. destruct (_ && _)%bool; reflexivity. }
    destruct (existsb _ row) eqn:Hany.
    + rewrite Hs. simpl. eauto.
    + destruct (lookup_lt_is_Some_2 labels i) as [l Hl]; [lia|]. rewrite Hl.
      assert (Hnil : slots_trace cl i 0 row = []).
      { clear -Hany. generalize 0%nat. induction row as [|j row IH]; intros n; simpl; auto.
        simpl in Hany. apply orb_false_iff in Hany as [-> Hany]. simpl. auto. }
      rewrite Hnil. simpl. eauto.
Qed.

Lemma conne_trace_cells nbs : conne_trace nbs = cells_trace ∅ 0 nbs.
Proof.
  unfold conne_trace.
  destruct (conne_cells_id_ok (map (fun _ => "") nbs) ∅ 0 nbs) as [log ->];
    [rewrite length_map; lia | reflexivity].
Qed.

Lemma hits_trace nbs a j :
  hits a j (conne_trace nbs) =
  match nbs !! a with
  | Some row => if decide (Z.of_nat a <= j)%Z then occurrences j row else 0%nat
  | None => 0%nat
  end.
Proof.
  rewrite conne_trace_cells, hits_cells by (intros k; rewrite elem_of_empty; lia).
  replace (a - 0)%nat with a by lia.
  destruct (nbs !! a); [|reflexivity].
  repeat destruct (decide _); try reflexivity; lia.
Qed.

(** Soundness of the two checkers. *)
Lemma symmetricb_sound nbs : symmetricb nbs = true → symmetric nbs.
Proof.
  unfold symmetricb, symmetric, listed. intros H a b (row & Hrow & Hin).
  rewrite forallb_forall in H.
  assert (Ha : (a < length nbs)%nat) by (eapply lookup_lt_Some; eauto).
  specialize (H a). rewrite Hrow in H. simpl in H.
  assert (Hseq : In a (seq 0 (length nbs))) by (apply in_seq; lia).
  specialize (H Hseq). rewrite forallb_forall in H.
  specialize (H (Z.of_nat b)). rewrite <- list_elem_of_In in H.
  specialize (H Hin). apply orb_true_iff in H as [H|H]; [apply Z.ltb_lt in H; lia|].
  apply bool_decide_eq_true in H. rewrite Nat2Z.id in H.
  destruct (nbs !! b) as [row'|]; simpl in H; [eauto|].
  apply elem_of_nil in H as [].
Qed.

Lemma no_repeatsb_sound nbs : no_repeatsb nbs = true → no_repeats nbs.
Proof.
  unfold no_repeatsb, no_repeats. intros H i row Hrow.
  rewrite forallb_forall in H. specialize (H row).
  eapply bool_decide_eq_true_1, H, list_elem_of_In, list_elem_of_lookup_2; eauto.
Qed.

(** In the trace of a loop over symmetric neighbour lists, in which no
    cell lists the same neighbour in two face slots, every pair of
    adjacent cells occurs once, and no other pair occurs. *)
Lemma trace_one_per_pair nbs :
  symmetric nbs → no_repeats nbs →
  ∀ a b : nat,
    (listed nbs a (Z.of_nat b) → count_pair a b (conne_trace nbs) = 1%nat) ∧
    (¬ listed nbs a (Z.of_nat b) → ¬ listed nbs b (Z.of_nat a) →
     count_pair a b (conne_trace nbs) = 0%nat).
Proof.
  intros Hsym Hnd a b.
  assert (Hone : ∀ x y : nat, (x <= y)%nat → listed nbs x (Z.of_nat y) →
                 hits x (Z.of_nat y) (conne_trace nbs) = 1%nat).
  { intros x y Hxy (row & Hrow & Hin). rewrite hits_trace, Hrow.
    destruct (decide _); [|lia].
    pose proof (occurrences_pos _ _ Hin).
    pose proof (occurrences_NoDup (Z.of_nat y) row ltac:(lia) (Hnd _ _ Hrow)). lia. }
  assert (Hzero : ∀ x y : nat, (y < x)%nat → hits x (Z.of_nat y) (conne_trace nbs) = 0%nat).
  { intros x y Hxy. rewrite hits_trace. destruct (nbs !! x); [|reflexivity].
    destruct (decide _); [lia|reflexivity]. }
  assert (Hnone : ∀ x y : nat, ¬ listed nbs x (Z.of_nat y) →
                  hits x (Z.of_nat y) (conne_trace nbs) = 0%nat).
  { intros x y Hn. rewrite hits_trace. destruct (nbs !! x) as [row|] eqn:Hrow; [|reflexivity].
    destruct (decide _); [|reflexivity]. apply occurrences_zero.
    intros Hin. apply Hn. exists row. auto. }
  rewrite count_pair_hits. split.
  - intros Hab. pose proof (Hsym _ _ Hab) as Hba.
    destruct (decide (a = b)) as [->|Hne]; [apply Hone; [lia|auto]|].
    destruct (decide (a < b)%nat).
    + rewrite (Hone a b), (Hzero b a) by (auto; lia). reflexivity.
    + rewrite (Hzero a b), (Hone b a) by (auto; lia). reflexivity.
  - intros Hab Hba. destruct (decide (a = b)) as [->|Hne]; rewrite ?Hnone; auto.
Qed.


(** C1 (as stated).  Two cells that share two faces have symmetric
    neighbour lists, and two entries are appended for the one pair. *)
Lemma repeated_neighbour_two_records :
  let nbs := [[1; 1]; [0; 0]]%Z in
  symmetric nbs ∧ listed nbs 0 1 ∧ count_pair 0 1 (conne_trace nbs) = 2%nat.
Proof.
  intros nbs. split; [apply symmetricb_sound; vm_compute; reflexivity|].
  split; [|vm_compute; reflexivity].
  exists [1; 1]%Z. split; [reflexivity|]. apply list_elem_of_In. vm_compute. tauto.
Qed.

End connections.

(** ** Strings *)

Section strings.

Lemma length_append s t : String.length (s +:+ t) = (String.length s + String.length t)%nat.
Proof. induction s as [|c s IH]; simpl; [reflexivity|]. rewrite IH. reflexivity. Qed.

Lemma length_spaces n : String.length (spaces n) = n.
Proof. induction n as [|n IH]; simpl; [reflexivity|]. rewrite IH. reflexivity. Qed.

Lemma length_ljust n s : String.length (ljust n s) = Nat.max n (String.length s).
Proof. unfold ljust. rewrite length_append, length_spaces. lia. Qed.

Lemma length_rjust n s : String.length (rjust n s) = Nat.max n (String.length s).
Proof. unfold rjust. rewrite length_append, length_spaces. lia. Qed.

Lemma length_line80 fields :
  String.length (line80 fields) = S (Nat.max 80 (String.length (join fields))).
Proof. unfold line80. rewrite length_append, length_ljust. simpl. lia. Qed.

Lemma length_substring_le n m s : (String.length (substring n m s) <= m)%nat.
Proof.
  revert n m; induction s as [|c s IH]; intros [|n] [|m]; simpl; try lia.
  - specialize (IH 0%nat m). lia.
  - apply IH.
  - apply IH.
Qed.

Lemma substring_0_append s t :
  substring 0 (String.length s) (s +:+ t) = s.
Proof. induction s as [|c s IH]; simpl; [destruct t; reflexivity|]. rewrite IH. reflexivity. Qed.

Lemma substring_all t : substring 0 (String.length t) t = t.
Proof. induction t as [|c t IH]; simpl; [reflexivity|]. rewrite IH. reflexivity. Qed.

Lemma substring_skip_append s t :
  substring (String.length s) (String.length t) (s +:+ t) = t.
Proof. induction s as [|c s IH]; simpl; [apply substring_all|exact IH]. Qed.

End strings.

(** ** The parameter validator *)

Section validator.

(** C10.  An item whose key the schema knows and whose value is [None]
    never changes what the validator does: with or without the item, the
    same warnings are logged and the outcome is the same, whatever the
    type the schema declares for the key. *)
Theorem none_passes (input_types : gmap key string) k ty classes
    before after keys log :
  input_types !! k = Some ty → str_to_dtype !! ty = Some classes →
  _check_parameters input_types (before ++ (k, PyNone) :: after) keys log
  = _check_parameters input_types (before ++ after) keys log.
Proof.
  intros Hk Hty. revert log.
  induction before as [|[k' v'] before IH]; intros log; simpl.
  - rewrite Hk, Hty. reflexivity.
  - destruct (input_types !! k') as [ty'|]; [|apply IH].
    destruct (str_to_dtype !! ty') as [classes'|]; [|reflexivity].
    destruct (negb _); [reflexivity|apply IH].
Qed.

Lemma none_passes_witness :
  schema_a !! KStr "a" = Some "scalar" ∧
  str_to_dtype !! "scalar" = Some scalar_classes ∧
  _check_parameters schema_a ([] ++ (KStr "a", PyNone) :: []) None []
  = _check_parameters schema_a ([] ++ []) None [].
Proof.
  split; [reflexivity|]. split; [reflexivity|].
  apply (none_passes schema_a (KStr "a") "scalar" scalar_classes);
    reflexivity.
Defined.

(** C7 (amended).  A string under a key declared [scalar] raises the
    [TypeError] naming the key, and ends the validation: the items after
    it are not visited.  For [{"a": "not_a_number", "b": 1}] nothing is
    logged; the warning for [b] is logged when [b] comes first. *)
Theorem check_parameters_stops_at_type_error (s : string)
    (rest : list (key * pyval)) (log : list string) :
  _check_parameters schema_a ((KStr "a", PyStr s) :: rest) None log
  = (log, Raise (TypeError "Invalid type for parameter 'a' (expected scalar)."))
  ∧ _check_parameters schema_a
      [(KStr "b", PyInt 1); (KStr "a", PyStr "not_a_number")] None []
    = (["Unknown key 'b'. Skipping."],
       Raise (TypeError "Invalid type for parameter 'a' (expected scalar).")).
Proof. split; reflexivity. Qed.

(** C7 (as stated).  For [{"a": "not_a_number", "b": 1}] the [TypeError]
    is raised and no warning has been logged. *)
Lemma check_parameters_no_warning_after_error :
  _check_parameters schema_a
    [(KStr "a", PyStr "not_a_number"); (KStr "b", PyInt 1)] None []
  = ([], Raise (TypeError "Invalid type for parameter 'a' (expected scalar).")).
Proof. reflexivity. Qed.

End validator.

(** ** The record codec *)

Section codec.

(** C3 (amended).  When [float] rejects the text, [str2float] takes its
    last four characters as the exponent and reads
    [<significand>e<exponent>]: ["1.234-005"] is read as [1.234e-5] and
    ["1.234+005"] as [1.234e5]. *)
Theorem str2float_four_char_exponent (significand exponent : string) :
  String.length exponent = 4%nat →
  float_of_str (significand +:+ exponent) = Raise ValueError →
  str2float (significand +:+ exponent)
  = float_of_str (significand +:+ "e" +:+ exponent)
  ∧ str2float "1.234-005" = Ok x_1_234em5
  ∧ float_of_str "1.234e-5" = Ok x_1_234em5
  ∧ str2float "1.234+005" = Ok 123400%float.
Proof.
  intros Hlen Hfail. split; [|repeat split; vm_compute; reflexivity].
  unfold str2float, drop_last, take_last. rewrite Hfail.
  rewrite length_append, Hlen.
  replace (String.length significand + 4 - 4)%nat
    with (String.length significand) by lia.
  rewrite substring_0_append. rewrite <- Hlen at 1.
  rewrite substring_skip_append. reflexivity.
Qed.

Lemma str2float_four_char_exponent_witness :
  String.length "-005" = 4%nat ∧
  float_of_str ("1.234" +:+ "-005") = Raise ValueError ∧
  str2float ("1.234" +:+ "-005") = float_of_str ("1.234" +:+ "e" +:+ "-005").
Proof.
  split; [reflexivity|]. split; [vm_compute; reflexivity|].
  apply (str2float_four_char_exponent "1.234" "-005");
    [reflexivity | vm_compute; reflexivity].
Defined.

(** C3 (as stated).  For ["1.234-5"] the last four characters are
    ["34-5"]; ["1.2e34-5"] is not a number and [str2float] raises
    [ValueError].  The same holds for ["1.234+5"]. *)
Lemma str2float_short_exponent_raises :
  str2float "1.234-5" = Raise ValueError ∧
  str2float "1.234+5" = Raise ValueError ∧
  drop_last 4 "1.234-5" +:+ "e" +:+ take_last 4 "1.234-5" = "1.2e34-5".
Proof. repeat split; vm_compute; reflexivity. Qed.

(** C4.  With ten columns and five decimals, [123456789.123] does not fit
    in fixed-point notation; the fall-back keeps the five decimals and
    returns eleven characters.  Without a precision in the format, the
    other branch lowers the precision and the result has ten characters. *)
Theorem to_str_fallback_overflows :
  to_str (PyFloat x_123456789_123) "{:>10.5f}" = Ok "1.23457e+08"
  ∧ String.length "1.23457e+08" = 11%nat
  ∧ to_str (PyFloat x_123456789_123) "{:>10f}" = Ok " 1.235e+08".
Proof. repeat split; vm_compute; reflexivity. Qed.

End codec.

(** ** Faces and distances *)

Section geometry.

(** C5.  In [sloping_hexes] face slot 2 of cell 0 is the trapezium with
    the vertices 0, 1, 5, 4 in this order.  The formula of the claim gives
    its area, 12; [_get_faces] sorts the vertices of the face, the two
    triangles are taken on the vertices 0, 1, 4 and 0, 4, 5, and the area
    found, and written in the CONNE record, is 8. *)
Theorem quad_area_uses_sorted_vertices :
  face_area_at sloping_hexes 0 2 = Ok 8%float
  ∧ quad_area_as_given (points sloping_hexes) [0; 1; 5; 4] = Ok 12%float
  ∧ quad_area_as_given (points sloping_hexes) (sort_row [0; 1; 5; 4])
    = Ok 8%float.
Proof. repeat split; vm_compute; reflexivity. Qed.

#[local] Open Scope float_scope.

Lemma conne_entry_fields m labels nodes faces fn fa bc i iface j c :
  conne_entry m labels nodes faces fn fa bc i iface j = Ok c →
  nodes !! i = Some (center1 c) ∧ np_index nodes j = Ok (center2 c) ∧
  bc !! i = Some (bound1 c) ∧ np_index bc j = Ok (bound2 c).
Proof.
  unfold conne_entry. intros H.
  repeat match type of H with
  | (mbind _ ?x = _) => destruct x eqn:?; simpl in H; [|discriminate]
  end.
  injection H as <-. simpl.
  repeat match goal with
  | E : of_option _ ?o = Ok _ |- _ => destruct o eqn:?; simpl in E; [injection E as ->|discriminate]
  end.
  auto.
Qed.

(** C6.  In both modes, the nodal distance on the side of a cell whose
    boundary-condition flag is not zero is the float [1.0e-9], wherever
    the centres and the interface are; on the side of a cell whose flag is
    zero it is the distance computed from the geometry: from the centre to
    the point where the line through the two centres meets the plane of
    the face, or from the centre to that plane. *)
Theorem boundary_distance_override m labels nodes faces fn fa bc i iface j c
    (mode : string) :
  mode = "line" ∨ mode = "orthogonal" →
  conne_entry m labels nodes faces fn fa bc i iface j = Ok c →
  ∃ a b bi bj d1 d2,
    nodes !! i = Some a ∧ np_index nodes j = Ok b ∧
    bc !! i = Some bi ∧ np_index bc j = Ok bj ∧
    nodal_distances mode c = Ok (d1, d2) ∧
    (bi ≠ 0%Z → d1 = 0x1.12e0be826d695p-30) ∧
    (bj ≠ 0%Z → d2 = 0x1.12e0be826d695p-30) ∧
    (bi = 0%Z → d1 = spec_distance mode a a b (int_point c) (int_normal c)) ∧
    (bj = 0%Z → d2 = spec_distance mode b a b (int_point c) (int_normal c)) ∧
    float_of_str "1.0e-9" = Ok 0x1.12e0be826d695p-30.
Proof.
  intros Hmode Hc. apply conne_entry_fields in Hc as (Ha & Hb & Hi & Hj).
  destruct c as [lbl a b p n ar bi bj]. simpl in *.
  assert (Hd : ∃ d1 d2, nodal_distances mode
              (Build_connection lbl a b p n ar bi bj) = Ok (d1, d2)
            ∧ (bi ≠ 0%Z → d1 = 0x1.12e0be826d695p-30)
            ∧ (bj ≠ 0%Z → d2 = 0x1.12e0be826d695p-30)
            ∧ (bi = 0%Z → d1 = spec_distance mode a a b p n)
            ∧ (bj = 0%Z → d2 = spec_distance mode b a b p n)).
  { destruct a as [[a0 a1] a2], b as [[b0 b1] b2], p as [[p0 p1] p2],
      n as [[n0 n1] n2].
    destruct Hmode as [-> | ->]; (eexists; eexists; split; [reflexivity|]);
      unfold nodal_distances, _distance_point_plane, np_where, truthy; simpl;
      destruct (Z.eqb_spec bi 0), (Z.eqb_spec bj 0); simpl;
      repeat split; intros; try contradiction; reflexivity. }
  destruct Hd as (d1 & d2 & Hd & H1 & H2 & H3 & H4).
  exists a, b, bi, bj, d1, d2. repeat split; auto.
Qed.

Lemma boundary_distance_override_witness :
  ∃ c,
    conne_entry two_hexes ["AAA00"; "AAA01"]
      [(0.5, 0.5, 0.5); (1.5, 0.5, 0.5)]
      [[[1; 2; 6; 5]%Z]] [[(1, 0, 0)]] [[1]] [1; 0]%Z 0 0 1 = Ok c
    ∧ nodal_distances "line" c = Ok (0x1.12e0be826d695p-30, 0.5)
    ∧ nodal_distances "orthogonal" c = Ok (0x1.12e0be826d695p-30, 0.5)
    ∧ ∃ a b bi bj d1 d2,
        [(0.5, 0.5, 0.5); (1.5, 0.5, 0.5)] !! 0%nat = Some a ∧
        np_index [(0.5, 0.5, 0.5); (1.5, 0.5, 0.5)] 1 = Ok b ∧
        [1; 0]%Z !! 0%nat = Some bi ∧ np_index [1; 0]%Z 1 = Ok bj ∧
        nodal_distances "line" c = Ok (d1, d2) ∧
        (bi ≠ 0%Z → d1 = 0x1.12e0be826d695p-30) ∧
        (bj ≠ 0%Z → d2 = 0x1.12e0be826d695p-30) ∧
        (bi = 0%Z → d1 = spec_distance "line" a a b (int_point c) (int_normal c)) ∧
        (bj = 0%Z → d2 = spec_distance "line" b a b (int_point c) (int_normal c)) ∧
        float_of_str "1.0e-9" = Ok 0x1.12e0be826d695p-30.
Proof.
  eexists. split; [vm_compute; reflexivity|].
  split; [vm_compute; reflexivity|]. split; [vm_compute; reflexivity|].
  apply (boundary_distance_override two_hexes ["AAA00"; "AAA01"]
           [(0.5, 0.5, 0.5); (1.5, 0.5, 0.5)]
           [[[1; 2; 6; 5]%Z]] [[(1, 0, 0)]] [[1]] [1; 0]%Z 0 0 1 _ "line");
    [left; reflexivity | vm_compute; reflexivity].
Defined.

End geometry.

(** ** The writer *)

Section writer.

(** C9 (amended).  With a mode other than ["line"] and ["orthogonal"],
    [write] raises [AssertionError] at its first statement: the file is
    not opened, no record is derived and no line is written. *)
Theorem write_rejects_mode (m : mesh) (mode : string) :
  mode ≠ "line" → mode ≠ "orthogonal" → write m mode = inl AssertionError.
Proof.
  intros H1 H2. unfold write.
  destruct (String.eqb_spec mode "line"); [contradiction|].
  destruct (String.eqb_spec mode "orthogonal"); [contradiction|].
  reflexivity.
Qed.

Lemma write_rejects_mode_witness :
  "radial" ≠ "line" ∧ "radial" ≠ "orthogonal" ∧
  write two_hexes "radial" = inl AssertionError.
Proof.
  assert (H1 : "radial" ≠ "line") by discriminate.
  assert (H2 : "radial" ≠ "orthogonal") by discriminate.
  split; [exact H1|]. split; [exact H2|].
  apply (write_rejects_mode two_hexes "radial" H1 H2).
Defined.

(** C9 (as stated).  The exception is not [ValueError]. *)
Lemma write_raises_assertion_error :
  write two_hexes "radial" = inl AssertionError ∧
  write two_hexes "radial" ≠ inl ValueError.
Proof. split; [reflexivity|discriminate]. Qed.

End writer.

(** ** Width of the lines *)

Section widths.

Lemma mapM_Ok_Forall2 {A B} (f : A → result B) l r :
  mapM f l = Ok r → Forall2 (fun a b => f a = Ok b) l r.
Proof.
  revert r; induction l as [|a l IH]; intros r; simpl.
  - intros [= <-]. constructor.
  - destruct (f a) as [b|] eqn:E; simpl; [|discriminate].
    destruct (mapM f l) as [bs|]; simpl; [|discriminate].
    intros [= <-]. constructor; auto.
Qed.

Lemma append_nil_r (a : string) : a +:+ "" = a.
Proof. induction a as [|x a IH]; [reflexivity|]. change (String x (a +:+ "") = String x a). rewrite IH. reflexivity. Qed.

Lemma join_foldr l : join l = foldr String.append "" l.
Proof.
  unfold join. induction l as [|x xs IH]; [reflexivity|].
  simpl. destruct xs as [|y ys]; [symmetry; apply append_nil_r|].
  rewrite IH. reflexivity.
Qed.

Lemma to_strs_Forall2 data fmt fields :
  to_strs data fmt = Ok fields →
  Forall2 (fun df s => to_str df.1 df.2 = Ok s) (zip data fmt) fields.
Proof.
  unfold to_strs. intros H. apply mapM_Ok_Forall2 in H.
  eapply Forall2_impl; [exact H|]. intros [d f] s Hs. exact Hs.
Qed.

Lemma chunks_lookup count ncol (data : list pyval) k :
  (k < count)%nat →
  chunks count ncol data !! k = Some (take ncol (drop (k * ncol) data)).
Proof.
  revert data k. induction count as [|count IH]; intros data k Hk; [lia|].
  destruct k as [|k]; simpl; [reflexivity|].
  rewrite IH by lia. rewrite drop_drop. repeat f_equal; lia.
Qed.

Lemma length_chunks count ncol (data : list pyval) :
  length (chunks count ncol data) = count.
Proof. revert data. induction count as [|count IH]; intros data; simpl; [reflexivity|]. rewrite IH. reflexivity. Qed.

Lemma line80_padded fields : line80 fields = padded_line fields.
Proof.
  unfold line80, ljust, padded_line. rewrite join_foldr.
  set (b := foldr String.append "" fields). generalize (spaces (80 - String.length b)).
  intros sp. induction b as [|c b IH]; [reflexivity|].
  change ((String c (b +:+ sp)) +:+ Helpers.newline = String c (b +:+ sp +:+ String (ascii_of_nat 10) "")).
  change (String c ((b +:+ sp) +:+ Helpers.newline) = String c (b +:+ sp +:+ String (ascii_of_nat 10) "")).
  rewrite IH. reflexivity.
Qed.

Lemma write_record_single data fmt lines :
  write_record data fmt false = Ok lines →
  ∃ fields,
    Forall2 (fun df s => to_str df.1 df.2 = Ok s) (zip data fmt) fields
    ∧ lines = [padded_line fields].
Proof.
  unfold write_record. simpl.
  destruct (to_strs data fmt) as [fields|] eqn:E; simpl; [|discriminate].
  intros [= <-]. exists fields. split; [apply to_strs_Forall2; exact E|rewrite line80_padded; reflexivity].
Qed.

Lemma write_record_multi data fmt lines :
  write_record data fmt true = Ok lines →
  (length data <= length lines * length fmt < length data + length fmt)%nat
  ∧ ∀ k l, lines !! k = Some l →
      ∃ fields,
        Forall2 (fun df s => to_str df.1 df.2 = Ok s)
                (zip (take (length fmt) (drop (k * length fmt) data)) fmt) fields
        ∧ l = padded_line fields.
Proof.
  unfold write_record. simpl.
  destruct (length fmt) as [|n] eqn:En; [discriminate|]. rewrite <- En.
  set (count := ((length data + length fmt - 1) / length fmt)%nat).
  intros H. apply mapM_Ok_Forall2 in H.
  pose proof (Forall2_length _ _ _ H) as Hlen. rewrite length_chunks in Hlen.
  split.
  - rewrite <- Hlen. unfold count.
    pose proof (Nat.div_mod_eq (length data + length fmt - 1) (length fmt)).
    pose proof (Nat.mod_upper_bound (length data + length fmt - 1) (length fmt)).
    nia.
  - intros k l Hl.
    assert (Hk : (k < count)%nat) by (rewrite Hlen; eapply lookup_lt_Some; eauto).
    pose proof (chunks_lookup count (length fmt) data k Hk) as Hc.
    destruct (Forall2_lookup_l _ _ _ _ _ H Hc) as (l' & Hl' & Hd).
    rewrite Hl in Hl'. injection Hl' as <-.
    destruct (to_strs _ fmt) as [fields|] eqn:E; simpl in Hd; [|discriminate].
    injection Hd as <-. exists fields. split; [apply to_strs_Forall2; exact E|rewrite line80_padded; reflexivity].
Qed.

Lemma length_padded_line fields :
  String.length (padded_line fields)
  = S (Nat.max 80 (String.length (foldr String.append "" fields))).
Proof.
  rewrite <- line80_padded, length_line80, join_foldr. reflexivity.
Qed.

Lemma format_e4 x : format "10.4e" (NpFloat64 x) = Ok (rjust 10 (float_str FtE (Some 4%nat) x)).
Proof. reflexivity. Qed.
Lemma format_e3 x : format "10.3e" (NpFloat64 x) = Ok (rjust 10 (float_str FtE (Some 3%nat) x)).
Proof. reflexivity. Qed.
Lemma format_blank5 : format ">5" (PyStr "") = Ok (spaces 5).
Proof. reflexivity. Qed.
Lemma format_blank10 : format ">10" (PyStr "") = Ok (spaces 10).
Proof. reflexivity. Qed.
Lemma format_label5 s : format "5.5" (PyStr s) = Ok (ljust 5 (substring 0 5 s)).
Proof. reflexivity. Qed.
Lemma format_label10 s : format "10.10" (PyStr s) = Ok (ljust 10 (substring 0 10 s)).
Proof. reflexivity. Qed.
Lemma format_rock rock : rock_fits rock → ∃ t, format ">5" rock = Ok t ∧ String.length t = 5%nat.
Proof.
  destruct rock; simpl; try contradiction; intros H.
  - eexists; split; [reflexivity|]. change (String.length (rjust 5 s) = 5%nat). rewrite length_rjust. lia.
  - eexists; split; [reflexivity|]. change (String.length (rjust 5 (str_of_int n)) = 5%nat). rewrite length_rjust. lia.
Qed.
Lemma format_isot isot : (1 <= isot <= 3)%Z → ∃ t, format ">5g" (NpInt64 isot) = Ok t ∧ String.length t = 5%nat.
Proof.
  intros H. assert (isot = 1 ∨ isot = 2 ∨ isot = 3)%Z as [->|[->| ->]] by lia;
  eexists; (split; [vm_compute; reflexivity|reflexivity]).
Qed.

Lemma eleme_record_width label rock volume x0 x1 x2 :
  rock_fits rock → e_fits 4 volume → e_fits 3 x0 → e_fits 3 x1 → e_fits 3 x2 →
  ∃ s, eleme_record (label, rock, volume, (x0, x1, x2)) = Ok s
       ∧ String.length s = 81%nat.
Proof.
  unfold e_fits. intros Hr Hv H0 H1 H2.
  destruct (format_rock rock Hr) as (t & Ht & Hlen).
  unfold eleme_record, format_fields, eleme_specs. cbn [zip_with mapM].
  rewrite Ht, !format_e4, !format_e3, ?format_blank5, ?format_blank10,
    ?format_label5, ?format_label10.
  cbn [mbind result_bind join String.concat].
  eexists. split; [reflexivity|].
  pose proof (length_substring_le 0 5 label).
  rewrite ?length_append, ?length_rjust, ?length_ljust, ?length_spaces, Hlen.
  simpl. lia.
Qed.

Lemma conne_record_width label isot d1 d2 a angle :
  (1 <= isot <= 3)%Z → e_fits 4 d1 → e_fits 4 d2 → e_fits 4 a →
  e_fits 3 angle →
  ∃ s, conne_record (label, isot, d1, d2, a, angle) = Ok s
       ∧ String.length s = 71%nat.
Proof.
  unfold e_fits. intros Hi H1 H2 Ha Hg.
  destruct (format_isot isot Hi) as (t & Ht & Hlen).
  unfold conne_record, format_fields, conne_specs. cbn [zip_with mapM].
  rewrite Ht, !format_e4, !format_e3, ?format_blank5, ?format_blank10,
    ?format_label5, ?format_label10.
  cbn [mbind result_bind join String.concat].
  eexists. split; [reflexivity|].
  pose proof (length_substring_le 0 10 label).
  rewrite ?length_append, ?length_rjust, ?length_ljust, ?length_spaces, Hlen.
  simpl. lia.
Qed.

Lemma _isot_range line : (1 <= _isot line <= 3)%Z.
Proof.
  destruct line as [[l0 l1] l2]. unfold _isot. simpl.
  destruct (PrimFloat.eqb l0 0), (PrimFloat.eqb l1 0), (PrimFloat.eqb l2 0);
    vm_compute; split; discriminate.
Qed.

(** C8 (amended).  A line of [write_record] is the texts [to_str] gives
    for its values and their formats, side by side and in full, filled
    with blanks up to 80 columns when they are shorter, then a newline:
    one line for all the values without [multi], and with [multi] one line
    for every run of as many values as there are formats.  When every
    field fits its column, a record of the ELEME block has 80 columns and
    a newline, and a record of the CONNE block has 70 columns and a
    newline. *)
Theorem line_widths data fmt multi lines label rock volume x0 x1 x2
    clabel (line : Tough.vec3) d1 d2 a angle :
  write_record data fmt multi = Ok lines →
  rock_fits rock → e_fits 4 volume → e_fits 3 x0 → e_fits 3 x1 → e_fits 3 x2 →
  e_fits 4 d1 → e_fits 4 d2 → e_fits 4 a → e_fits 3 angle →
  (multi = false →
     ∃ fields,
       Forall2 (fun df s => to_str df.1 df.2 = Ok s) (zip data fmt) fields
       ∧ lines = [padded_line fields])
  ∧ (multi = true →
     (length data <= length lines * length fmt < length data + length fmt)%nat
     ∧ ∀ k l, lines !! k = Some l →
         ∃ fields,
           Forall2 (fun df s => to_str df.1 df.2 = Ok s)
                   (zip (take (length fmt) (drop (k * length fmt) data)) fmt)
                   fields
           ∧ l = padded_line fields)
  ∧ (∀ fields,
       String.length (padded_line fields)
       = S (Nat.max 80 (String.length (foldr String.append "" fields))))
  ∧ (∃ s, eleme_record (label, rock, volume, (x0, x1, x2)) = Ok s
          ∧ String.length s = 81%nat)
  ∧ (∃ s, conne_record (clabel, _isot line, d1, d2, a, angle) = Ok s
          ∧ String.length s = 71%nat).
Proof.
  intros Hw Hr Hv H0 H1 H2 Hd1 Hd2 Ha Hg. repeat split.
  - intros ->. apply write_record_single. exact Hw.
  - subst multi. apply write_record_multi in Hw as [[? ?] _]. assumption.
  - subst multi. apply write_record_multi in Hw as [[? ?] _]. assumption.
  - subst multi. apply write_record_multi in Hw as [_ Hl]. exact Hl.
  - apply length_padded_line.
  - apply eleme_record_width; assumption.
  - apply conne_record_width; auto using _isot_range.
Qed.

Lemma line_widths_witness :
  let data := [PyFloat 1.5; PyInt 3; PyNone] in
  let fmt := ["{:>10.4e}"; "{:>5g}"; "{:>10.4e}"] in
  ∃ lines,
    write_record data fmt false = Ok lines
    ∧ lines = ["1.5000e+00    3" +:+ spaces 65 +:+ String (ascii_of_nat 10) ""]
    ∧ (∃ fields,
         Forall2 (fun df s => to_str df.1 df.2 = Ok s) (zip data fmt) fields
         ∧ lines = [padded_line fields])
    ∧ (∃ s, eleme_record ("AAA00", NpInt64 1, 1%float, (0.5, 0.5, 0.5)%float)
            = Ok s ∧ String.length s = 81%nat)
    ∧ (∃ s, conne_record ("AAA00AAA01", _isot (1, 0, 0)%float,
                          boundary_distance, 0.5%float, 1%float, 0%float)
            = Ok s ∧ String.length s = 71%nat).
Proof.
  intros data fmt. eexists. split; [vm_compute; reflexivity|].
  split; [vm_compute; reflexivity|].
  destruct (line_widths data fmt false _ "AAA00" (NpInt64 1) 1%float
              0.5%float 0.5%float 0.5%float "AAA00AAA01" (1, 0, 0)%float
              boundary_distance 0.5%float 1%float 0%float
              ltac:(vm_compute; reflexivity) ltac:(vm_compute; lia)
              ltac:(vm_compute; lia) ltac:(vm_compute; lia)
              ltac:(vm_compute; lia) ltac:(vm_compute; lia)
              ltac:(vm_compute; lia) ltac:(vm_compute; lia)
              ltac:(vm_compute; lia) ltac:(vm_compute; lia))
    as (Hs & _ & _ & He & Hc).
  split; [exact (Hs eq_refl)|]. split; [exact He|exact Hc].
Defined.

(** C8 (as stated).  The record of the connection of [two_hexes] has 70
    columns before its newline, and a line of [write_record] with nine
    fields of ten characters has 90. *)
Lemma conne_record_70_columns :
  (∃ s, conne_record ("AAA00AAA01", 1, boundary_distance, 0.5%float,
                      1%float, 0%float) = Ok s
        ∧ String.length s = 71%nat)
  ∧ (∃ l, write_record (replicate 9 (PyStr "0123456789"))
                       (replicate 9 "{:>10}") false = Ok [l]
          ∧ String.length l = 91%nat).
Proof.
  split; eexists; (split; [vm_compute; reflexivity|reflexivity]).
Qed.

End widths.

(** ** The records of the connections *)

Section derivation.

Lemma np_index_nonneg {A} (l : list A) j x :
  (0 <= j)%Z → np_index l j = Ok x → l !! Z.to_nat j = Some x.
Proof.
  unfold np_index. intros Hj. cbv zeta.
  rewrite !(proj2 (Z.ltb_ge j 0) Hj).
  destruct (l !! Z.to_nat j); simpl; congruence.
Qed.

Lemma conne_entry_record m labels nodes faces fn fa bc i iface j c :
  (0 <= j)%Z →
  conne_entry m labels nodes faces fn fa bc i iface j = Ok c →
  record_of labels nodes (i, iface, j) c.
Proof.
  unfold conne_entry. intros Hj H.
  destruct (labels !! i) as [li|] eqn:Hli; simpl in H; [|discriminate].
  destruct (np_index labels j) as [lj|] eqn:Hlj; simpl in H; [|discriminate].
  change (format_fields ["5.5"; "5.5"] [PyStr li; PyStr lj])
    with (Ok (ljust 5 (substring 0 5 li) +:+ ljust 5 (substring 0 5 lj))) in H.
  simpl in H.
  destruct (nodes !! i) as [ni|] eqn:Hni; simpl in H; [|discriminate].
  destruct (np_index nodes j) as [nj|] eqn:Hnj; simpl in H; [|discriminate].
  repeat match type of H with
  | (mbind _ ?x = _) => destruct x eqn:?; simpl in H; [|discriminate]
  end.
  injection H as <-. exists li, lj. simpl.
  repeat split; auto using np_index_nonneg.
Qed.

Lemma slots_trace_nonneg cl i iface row :
  Forall (fun t : nat * nat * Z => (0 <= t.2)%Z) (slots_trace cl i iface row).
Proof.
  revert iface. induction row as [|j row IH]; intros iface; simpl; [constructor|].
  apply Forall_app. split; [|apply IH].
  destruct (Z.leb_spec 0 j); simpl; [|constructor].
  destruct (negb _); repeat constructor. exact H.
Qed.

Lemma cells_trace_nonneg cl i nbs :
  Forall (fun t : nat * nat * Z => (0 <= t.2)%Z) (cells_trace cl i nbs).
Proof.
  revert cl i. induction nbs as [|row nbs IH]; intros cl i; simpl; [constructor|].
  apply Forall_app. split; [apply slots_trace_nonneg|apply IH].
Qed.

Lemma conne_connections_cells m labels nodes log cs :
  conne_connections m labels nodes = (log, Ok cs) →
  ∃ faces fn fa bc,
    conne_cells (conne_entry m labels nodes faces fn fa bc) labels ∅ 0
      (concat (connectivity m)) = (log, Ok cs).
Proof.
  unfold conne_connections. intros H.
  destruct (connectivity m) as [|g gs] eqn:Hc; [discriminate|].
  cbn [np_concatenate mbind result_bind] in H.
  destruct (np_concatenate (faces m)) as [faces|]; cbn [mbind result_bind] in H; [|discriminate].
  destruct (_get_faces faces) as [[fd fc]|]; cbn [mbind result_bind] in H; [|discriminate].
  destruct (_get_face_normals_areas m fd fc) as [[fn fa]|]; cbn [mbind result_bind] in H; [|discriminate].
  destruct (match assoc "boundary_condition" (cell_data m) with
            | Some groups => np_concatenate groups
            | None => Ok (replicate (n_cells m) 0)
            end) as [bc|]; cbn [mbind result_bind] in H; [|discriminate].
  exists faces, fn, fa, bc. exact H.
Qed.

Lemma write_records_length {A} (record : A → result string) l :
  outcome (write_records record l) = Ok () →
  length (written (write_records record l)) = length l.
Proof.
  induction l as [|x l IH]; simpl; [reflexivity|].
  destruct (record x) as [s|e]; simpl; [|discriminate].
  unfold and_then. simpl. destruct (outcome (write_records record l)) eqn:E; simpl.
  - intros _. rewrite IH; [reflexivity|destruct a; reflexivity].
  - discriminate.
Qed.

Lemma mapM_length {A B} (f : A → result B) l r : mapM f l = Ok r → length r = length l.
Proof. intros H. apply mapM_Ok_Forall2 in H. symmetry. eapply Forall2_length; eauto. Qed.

Lemma entries_records m labels nodes faces fn fa bc ts cs :
  Forall (fun t : nat * nat * Z => (0 <= t.2)%Z) ts →
  Forall2 (fun t c => (let '(i, iface, j) := t in
             conne_entry m labels nodes faces fn fa bc i iface j) = Ok c) ts cs →
  Forall2 (record_of labels nodes) ts cs.
Proof.
  intros Hnn Hm. induction Hm as [|[[i iface] j] c ts cs Ht _ IH]; constructor.
  - apply Forall_cons in Hnn as [Hj _].
    eapply conne_entry_record; [exact Hj|exact Ht].
  - apply IH. apply Forall_cons in Hnn as [_ Hnn]. exact Hnn.
Qed.

(** C1 (amended).  When the derivation of the connections completes, on
    a mesh whose neighbour lists are symmetric and in which no cell lists
    the same neighbour in two face slots, its records are, in order, the
    records of a list of pairs of cells in which every pair of adjacent
    cells occurs exactly once and no other pair occurs; [_write_conne]
    then writes one line for each record, between the line of the keyword
    and the blank line. *)
Theorem one_record_per_adjacent_pair m labels nodes log cs :
  conne_connections m labels nodes = (log, Ok cs) →
  symmetric (concat (connectivity m)) →
  no_repeats (concat (connectivity m)) →
  ∃ pairs : list (nat * nat * Z),
    Forall2 (record_of labels nodes) pairs cs
    ∧ (∀ a b : nat,
         (listed (concat (connectivity m)) a (Z.of_nat b) →
          count_pair a b pairs = 1%nat)
         ∧ (¬ listed (concat (connectivity m)) a (Z.of_nat b) →
            ¬ listed (concat (connectivity m)) b (Z.of_nat a) →
            count_pair a b pairs = 0%nat))
    ∧ (∀ mode, outcome (_write_conne m labels nodes mode) = Ok () →
         length (written (_write_conne m labels nodes mode))
         = (length cs + 2)%nat).
Proof.
  intros H Hs Hn.
  destruct (conne_connections_cells _ _ _ _ _ H) as (faces & fn & fa & bc & Hc).
  pose proof (conne_cells_trace _ _ _ _ _ _ _ Hc) as Hm.
  apply mapM_Ok_Forall2 in Hm.
  exists (conne_trace (concat (connectivity m))).
  rewrite conne_trace_cells. split; [|split].
  - eapply entries_records; [apply cells_trace_nonneg|exact Hm].
  - rewrite <- conne_trace_cells. apply trace_one_per_pair; assumption.
  - intros mode. unfold _write_conne, block, conne_body. rewrite H.
    cbn [mbind result_bind].
    destruct (conne_iterables mode cs) as [its|e] eqn:Hi; [|discriminate].
    assert (Hlen : length its = length cs).
    { unfold conne_iterables in Hi. destruct cs; [discriminate|].
      apply mapM_length in Hi. exact Hi. }
    unfold and_then. cbn [outcome written logged].
    destruct (outcome (write_records conne_record its)) eqn:Ho; cbn [outcome written logged];
      [|discriminate].
    intros _. rewrite !length_app. cbn [length].
    rewrite write_records_length by (rewrite Ho; destruct a; reflexivity). simpl. lia.
Qed.

Lemma one_record_per_adjacent_pair_witness :
  let labels := ["AAA00"; "AAA01"] in
  let nodes := [(0.5, 0.5, 0.5); (1.5, 0.5, 0.5)]%float in
  ∃ log cs,
    conne_connections two_hexes labels nodes = (log, Ok cs)
    ∧ length cs = 1%nat
    ∧ symmetric (concat (connectivity two_hexes))
    ∧ no_repeats (concat (connectivity two_hexes))
    ∧ ∃ pairs : list (nat * nat * Z),
        Forall2 (record_of labels nodes) pairs cs
        ∧ (∀ a b : nat,
             (listed (concat (connectivity two_hexes)) a (Z.of_nat b) →
              count_pair a b pairs = 1%nat)
             ∧ (¬ listed (concat (connectivity two_hexes)) a (Z.of_nat b) →
                ¬ listed (concat (connectivity two_hexes)) b (Z.of_nat a) →
                count_pair a b pairs = 0%nat))
        ∧ (∀ mode,
             outcome (_write_conne two_hexes labels nodes mode) = Ok () →
             length (written (_write_conne two_hexes labels nodes mode))
             = (length cs + 2)%nat).
Proof.
  intros labels nodes. eexists. eexists.
  split; [vm_compute; reflexivity|]. split; [reflexivity|].
  assert (Hs : symmetric (concat (connectivity two_hexes)))
    by (apply symmetricb_sound; vm_compute; reflexivity).
  assert (Hn : no_repeats (concat (connectivity two_hexes)))
    by (apply no_repeatsb_sound; vm_compute; reflexivity).
  split; [exact Hs|]. split; [exact Hn|].
  apply (one_record_per_adjacent_pair two_hexes labels nodes [] _);
    [vm_compute; reflexivity | exact Hs | exact Hn].
Defined.

End derivation.

(** ** Round trip of a float column *)

#[local] Arguments digit_char : simpl never.
#[local] Arguments digit_value : simpl never.
#[local] Arguments is_digit : simpl never.
#[local] Arguments is_space : simpl never.

Section appends.











End appends.

Section numerals.


















End numerals.

Section parsing.




Lemma is_digit_not c d : is_digit d = false → all_chars is_digit (String c "") = true → Ascii.eqb d c = false.
Proof.
  simpl. rewrite andb_true_r. intros Hd Hc.
  destruct (Ascii.eqb_spec d c); [congruence|reflexivity].
Qed.













End parsing.

Section reading.
















End reading.

Section rounding.



Lemma pow10_pos k : 0 < 10 ^ k ∨ k < 0.
Proof. destruct (Z.le_gt_cases 0 k); [left; apply Z.pow_pos_nonneg; lia|right; lia]. Qed.



End rounding.

Section formats.















End formats.

Section encoding.






End encoding.

Section exponents.











End exponents.

Section decoding.












End decoding.

Section round_trip.





End round_trip.
